(** * go-rest: construction of the router ([New]) and request dispatch
      ([ServeHTTP], [findNode]) of rest.go, as a shallow embedding.

    Strings are [string]; a Go [error] is its message and [nil] is [None];
    a recovered panic value is its [%v] rendering.  The response writer is
    observed through the calls made on it, in order. *)

From Stdlib Require Import String Ascii List Bool Arith Lia.
Import ListNotations.
Local Open Scope string_scope.
Local Open Scope list_scope.

(** ** net/http: status codes, the response writer, [http.Error] *)

Definition StatusOK : nat := 200.
Definition StatusBadRequest : nat := 400.
Definition StatusNotFound : nat := 404.
Definition StatusInternalServerError : nat := 500.

(** The three operations of [http.ResponseWriter]. *)
Inductive WriterCall : Type :=
| HeaderSet (key value : string)
| WriteHeader (code : nat)
| Write (data : string).

Definition newline : string := String (ascii_of_nat 10) EmptyString.

(** [http.Error(w, error, code)]: sets the content type, writes the header
    with [code], then prints the message followed by a newline. *)
Definition http_Error (error : string) (code : nat) : list WriterCall :=
  [ HeaderSet "Content-Type" "text/plain; charset=utf-8";
    WriteHeader code;
    Write (error ++ newline)%string ].

(** What a client sees of a sequence of writer calls: the status is the one
    of the first [WriteHeader]; a [Write] that comes first sends 200. *)
Fixpoint statusCode (calls : list WriterCall) : option nat :=
  match calls with
  | [] => None
  | HeaderSet _ _ :: rest => statusCode rest
  | WriteHeader code :: _ => Some code
  | Write _ :: _ => Some StatusOK
  end.

Fixpoint body (calls : list WriterCall) : string :=
  match calls with
  | [] => ""
  | Write data :: rest => (data ++ body rest)%string
  | _ :: rest => body rest
  end.

(** A response has been started once the header or some data was written. *)
Definition wroteResponse (calls : list WriterCall) : bool :=
  match statusCode calls with Some _ => true | None => false end.

(** ** Results, panics and the effect monad of the dispatcher *)

Inductive Result (A : Type) : Type :=
| Ok (a : A)
| Err (e : string).
Arguments Ok {A} a.
Arguments Err {A} e.

(** A call that touches no writer: it returns, or it panics. *)
Inductive PanicOr (A : Type) : Type :=
| Val (a : A)
| Panic (v : string).
Arguments Val {A} a.
Arguments Panic {A} v.

(** A computation that leaves a trace of events of type [E] and either
    returns or panics. *)
Inductive Outcome (E A : Type) : Type :=
| Returned (a : A) (trace : list E)
| Panicked (v : string) (trace : list E).
Arguments Returned {E A} a trace.
Arguments Panicked {E A} v trace.

Definition ret {E A : Type} (a : A) : Outcome E A := Returned a [].

Definition bind {E A B : Type} (m : Outcome E A) (k : A -> Outcome E B)
  : Outcome E B :=
  match m with
  | Returned a t =>
      match k a with
      | Returned b t' => Returned b (t ++ t')
      | Panicked v t' => Panicked v (t ++ t')
      end
  | Panicked v t => Panicked v t
  end.

Definition call {E A : Type} (c : PanicOr A) : Outcome E A :=
  match c with
  | Val a => Returned a []
  | Panic v => Panicked v []
  end.

Definition traceOf {E A : Type} (m : Outcome E A) : list E :=
  match m with
  | Returned _ t => t
  | Panicked _ t => t
  end.

Declare Scope go_scope.
Delimit Scope go_scope with go.
Notation "x <- c ;; k" := (bind c (fun x => k))
  (at level 100, c at next level, right associativity) : go_scope.
Notation "' pat <- c ;; k" := (bind c (fun x => match x with pat => k end))
  (at level 100, pat pattern, c at next level, right associativity) : go_scope.
Local Open Scope go_scope.

(** ** reflect: the service value handed to [New] *)

(** A struct tag as the list of its [key:value] pairs. *)
Definition StructTag : Type := list (string * string).

(** The fields of a struct type, first to last, as reflect walks them:
    name, whether the field is embedded, tag, the fields of the field's
    own type when it is an embedded struct or pointer to a struct
    ([NoMembers] otherwise), and the fields that follow.  Struct types are
    finite trees here: a type that embeds a pointer to itself is left
    out. *)
Inductive Members : Type :=
| NoMembers
| Member (name : string) (anonymous : bool) (tag : StructTag)
         (inner : Members) (rest : Members).

(** The field types the package distinguishes.  Modelled from the spec: the
    declarations of [Service], [Processor] and [Streaming] are not part of
    the sources; the routable field types are the Processor-like and the
    Streaming-like ones, and [Service] is the configuration anchor.
    [TEmbedded] is an embedded field whose type is another struct: the
    name of that type, whether it satisfies [nodeInterface] (through
    promoted methods), and its fields.  The three types of the package
    are taken to promote no field of their own. *)
Inductive FieldType : Type :=
| TService
| TProcessor
| TStreaming
| TOther (name : string)
| TEmbedded (name : string) (node : bool) (inner : Members).

(** [_, ok := handler.Interface().(nodeInterface)]. *)
Definition implements_nodeInterface (t : FieldType) : bool :=
  match t with
  | TProcessor | TStreaming => true
  | TService | TOther _ => false
  | TEmbedded _ node _ => node
  end.

Definition isService (t : FieldType) : bool :=
  match t with
  | TService => true
  | _ => false
  end.

Definition typeString (t : FieldType) : string :=
  match t with
  | TService => "rest.Service"
  | TProcessor => "rest.Processor"
  | TStreaming => "rest.Streaming"
  | TOther name => name
  | TEmbedded name _ _ => name
  end.

Definition isEmbedded (t : FieldType) : bool :=
  match t with
  | TEmbedded _ _ _ => true
  | _ => false
  end.

Definition innerOf (t : FieldType) : Members :=
  match t with
  | TEmbedded _ _ inner => inner
  | _ => NoMembers
  end.

Fixpoint Get (tag : StructTag) (key : string) : option string :=
  match tag with
  | [] => None
  | (k, v) :: rest => if String.eqb k key then Some v else Get rest key
  end.

(** One field of the service struct, as [t.Field(i)] and
    [instance.Field(i)] show it: name, type, tag, and whether it is
    exported ([PkgPath == ""]). *)
Record Field : Type := mkField {
  Name : string;
  Type_ : FieldType;
  Tag : StructTag;
  Exported : bool
}.

(** A method of the service type. [In_] lists the parameter types after the
    receiver, [Out] the result type if any. *)
Record Method : Type := mkMethod {
  mName : string;
  In_ : list string;
  Out : option string
}.

(** A struct value with its type: name, fields in declaration order and
    method set. *)
Record Struct : Type := mkStruct {
  typeName : string;
  fields : list Field;
  methods : list Method
}.

(** [reflect.ValueOf(i)]: nothing ([nil]), a struct, a nil pointer, a
    pointer to a value, or a value of another kind. *)
Inductive ReflectValue : Type :=
| RVInvalid
| RVStruct (st : Struct)
| RVNilPtr
| RVPtr (target : ReflectValue)
| RVOther (kind : string).

Inductive Kind : Type := Invalid | StructKind | Ptr | OtherKind.

Definition Kind_of (v : ReflectValue) : Kind :=
  match v with
  | RVInvalid => Invalid
  | RVStruct _ => StructKind
  | RVNilPtr | RVPtr _ => Ptr
  | RVOther _ => OtherKind
  end.

Definition Kind_eqb (a b : Kind) : bool :=
  match a, b with
  | Invalid, Invalid | StructKind, StructKind
  | Ptr, Ptr | OtherKind, OtherKind => true
  | _, _ => false
  end.

(** [v.Elem()] of a pointer: the zero Value when the pointer is nil. *)
Definition Elem (v : ReflectValue) : ReflectValue :=
  match v with
  | RVPtr target => target
  | RVNilPtr => RVInvalid
  | other => other
  end.

(** [reflect.StructField], as far as [New] reads it. *)
Record StructField : Type := mkStructField {
  sfName : string;
  sfTag : StructTag;
  Index : list nat
}.

(** The quick check of [t.FieldByName(name)] over the fields of the struct
    itself. *)
Fixpoint FieldByName_from (fs : list Field) (name : string) (i : nat)
  : option StructField :=
  match fs with
  | [] => None
  | f :: rest =>
      if String.eqb (Name f) name
      then Some {| sfName := Name f; sfTag := Tag f; Index := [i] |}
      else FieldByName_from rest name (S i)
  end.

Fixpoint layoutOf (fs : list Field) : Members :=
  match fs with
  | [] => NoMembers
  | f :: rest =>
      Member (Name f) (isEmbedded (Type_ f)) (Tag f) (innerOf (Type_ f))
             (layoutOf rest)
  end.

(** The fields called [name] that lie [d] levels of embedding below [ms],
    with their index sequences; [index] leads to [ms] and [i] counts its
    fields.  A field that matches is not searched further. *)
Fixpoint matchesAt (name : string) (d : nat) (ms : Members)
         (index : list nat) (i : nat) : list StructField :=
  match ms with
  | NoMembers => []
  | Member n anonymous tag inner rest =>
      match d with
      | 0 =>
          if String.eqb n name
          then [{| sfName := n; sfTag := tag; Index := index ++ [i] |}]
          else []
      | S d' =>
          if String.eqb n name then []
          else if anonymous then matchesAt name d' inner (index ++ [i]) 0
          else []
      end ++ matchesAt name d rest index (S i)
  end.

(** The number of levels of embedding in [ms]. *)
Fixpoint levelsOf (ms : Members) : nat :=
  match ms with
  | NoMembers => 0
  | Member _ anonymous _ inner rest =>
      Nat.max (if anonymous then S (levelsOf inner) else 1) (levelsOf rest)
  end.

(** The breadth-first search of [FieldByNameFunc], level by level from
    [d]: the first level with a match decides, and two matches on one
    level hide each other. *)
Fixpoint searchLevels (name : string) (ms : Members) (levels d : nat)
  : option StructField :=
  match levels with
  | 0 => None
  | S levels' =>
      match matchesAt name d ms [] 0 with
      | [] => searchLevels name ms levels' (S d)
      | [sf] => Some sf
      | _ :: _ :: _ => None
      end
  end.

(** [t.FieldByName(name)]: a field of the struct itself, or else, when the
    struct has embedded fields, the field that they promote. *)
Definition FieldByName (st : Struct) (name : string) : option StructField :=
  match FieldByName_from (fields st) name 0 with
  | Some sf => Some sf
  | None =>
      if existsb (fun f => isEmbedded (Type_ f)) (fields st)
      then searchLevels name (layoutOf (fields st))
                        (levelsOf (layoutOf (fields st))) 0
      else None
  end.

(** [instance.Field(0).Interface()]: reflect panics when the struct has no
    field, and when the field is not exported. *)
Definition Field0_Interface (st : Struct) : PanicOr Field :=
  match fields st with
  | [] => Panic "reflect: Field index out of range"
  | f :: _ =>
      if Exported f then Val f
      else Panic "reflect.Value.Interface: cannot return value obtained from unexported field or method"
  end.

(** ** The request *)

Record Request : Type := mkRequest {
  Method_ : string;
  URL_Path : string;
  Body : string
}.

(** ** The router and the dispatcher *)

Section Dispatch.

(** [*regexp.Regexp] and its [MatchString]. *)
Variable Regexp : Type.
Variable MatchString : Regexp -> string -> bool.

(** [reflect.Value] arguments of a handler; the request context. *)
Variable Value : Type.
Variable Context : Type.

(** A compiled route.  Modelled from the spec: the declaration of [node]
    is not part of the sources; [method], [path] and [request] are the
    fields rest.go reads, [handler] is the bound service method. *)
Record node : Type := mkNode {
  method : string;
  path : Regexp;
  request : option string;
  handler : Method
}.

Record Rest : Type := mkRest {
  prefix : string;
  defaultCharset : string;
  defaultMime : string;
  instance : Struct;
  handlers : list node
}.

(** The functions of the package that rest.go calls and whose bodies are
    not part of the sources. *)

(** [initService(service, serviceTag)]: prefix, mime, charset, error. *)
Variable initService :
  Field -> StructTag -> string * string * string * option string.

(** [newNode(t, prefix, handler, handlerType)]. *)
Variable newNode : Struct -> string -> Field -> Result node.

(** [node.match(method, path)]: the converted arguments and an error. *)
Variable node_match :
  node -> string -> string -> PanicOr (list Value * option string).

(** [newContent(w, r, defaultMime, defaultCharset)]: the context keeps
    the writer and writes nothing itself. *)
Variable newContent :
  Request -> string -> string -> PanicOr (Context * option string).

(** [reflect.New(req)]: a fresh zero value of the request type. *)
Variable reflect_New : string -> Value.

(** [ctx.marshaller.Unmarshal(r.Body, ptr)]: what the pointee holds after
    the call, and the error. *)
Variable Unmarshal :
  Context -> string -> Value -> PanicOr (Value * option string).

(** [node.handle(instance, ctx, args)]: runs the bound handler, which
    writes to the response through the context and may panic. *)
Variable node_handle :
  node -> Struct -> Context -> list Value -> Outcome WriterCall unit.

(** *** New *)

Inductive NewResult : Type :=
| NewOk (r : Rest)
| NewErr (e : string)
| NewPanic (v : string).

(** The loop of [New] over the fields that are left, with the handlers
    appended so far.  [handler.Interface()] panics on a field that is not
    exported; a field that is no [nodeInterface] is skipped. *)
Fixpoint collectHandlers (t : Struct) (prefix_ : string)
         (fs : list Field) (acc : list node) : PanicOr (Result (list node)) :=
  match fs with
  | [] => Val (Ok acc)
  | handler_ :: rest =>
      if negb (Exported handler_) then
        Panic "reflect.Value.Interface: cannot return value obtained from unexported field or method"
      else if negb (implements_nodeInterface (Type_ handler_)) then
        collectHandlers t prefix_ rest acc
      else
        match newNode t prefix_ handler_ with
        | Err e => Val (Err e)
        | Ok n => collectHandlers t prefix_ rest (acc ++ [n])
        end
  end.

(** [New]. [instance.Type()] panics on the zero Value that [Elem] gives
    for a nil pointer, and [t.FieldByName] on a type that is no struct. *)
Definition New (i : ReflectValue) : NewResult :=
  if negb (Kind_eqb (Kind_of i) StructKind) && negb (Kind_eqb (Kind_of i) Ptr)
  then NewErr "%!s(MISSING)'s kind must struct or point to struct"
  else
    let instance_ := if Kind_eqb (Kind_of i) Ptr then Elem i else i in
    match instance_ with
    | RVInvalid => NewPanic "reflect: call of reflect.Value.Type on zero Value"
    | RVStruct t =>
        match FieldByName t "Service" with
        | None => NewErr "can't find restful.Service field"
        | Some serviceType =>
            if negb (Nat.eqb (hd 0 (Index serviceType)) 0) then
              NewErr (typeName t ++ "'s 1st field must be restful.Service")%string
            else
              let serviceTag := sfTag serviceType in
              match fields t with
              | [] => NewPanic "reflect: Field index out of range"
              | service :: _ =>
                  let '(prefix_, mime, charset, err) :=
                    initService service serviceTag in
                  match err with
                  | Some e => NewErr e
                  | None =>
                      match collectHandlers t prefix_ (fields t) [] with
                      | Panic v => NewPanic v
                      | Val (Err e) => NewErr e
                      | Val (Ok handlers_) =>
                          NewOk {| prefix := prefix_;
                                   defaultMime := mime;
                                   defaultCharset := charset;
                                   handlers := handlers_;
                                   instance := t |}
                      end
                  end
              end
        end
    | _ => NewPanic "reflect: FieldByName of non-struct type"
    end.

Definition Prefix (s : Rest) : string := prefix s.

(** *** findNode *)

Fixpoint findNode_in (hs : list node) (r : Request) : option node :=
  match hs with
  | [] => None
  | h :: rest =>
      if negb (String.eqb (method h) (Method_ r)) then findNode_in rest r
      else if MatchString (path h) (URL_Path r) then Some h
      else findNode_in rest r
  end.

Definition findNode (s : Rest) (r : Request) : option node :=
  findNode_in (handlers s) r.

(** *** ServeHTTP *)

(** What the dispatcher does, in order: calls on the response writer and
    invocations of a handler. *)
Inductive Event : Type :=
| OnWriter (c : WriterCall)
| Handle (n : node) (inst : Struct) (ctx : Context) (args : list Value).

Definition writerCalls (t : list Event) : list WriterCall :=
  flat_map (fun e => match e with OnWriter c => [c] | Handle _ _ _ _ => [] end) t.

Definition handlerCalls (t : list Event) : list (node * list Value) :=
  flat_map (fun e => match e with
                     | OnWriter _ => []
                     | Handle n _ _ args => [(n, args)]
                     end) t.

(** [service := s.instance.Field(0).Interface().(Service)]: the type
    assertion panics on a field of another type. *)
Definition assertService (st : Struct) : PanicOr Field :=
  match Field0_Interface st with
  | Panic v => Panic v
  | Val f =>
      if isService (Type_ f) then Val f
      else Panic ("interface conversion: interface {} is "
                    ++ typeString (Type_ f) ++ ", not rest.Service")%string
  end.

(** [node.handle(s.instance, service.ctx, args)], recorded. *)
Definition invoke_handle (s : Rest) (n : node) (ctx : Context)
           (args : list Value) : Outcome Event unit :=
  match node_handle n (instance s) ctx args with
  | Returned u calls =>
      Returned u (Handle n (instance s) ctx args :: map OnWriter calls)
  | Panicked v calls =>
      Panicked v (Handle n (instance s) ctx args :: map OnWriter calls)
  end.

(** The last lines of ServeHTTP. [service.ctx = ctx] assigns to a copy. *)
Definition callHandler (s : Rest) (n : node) (ctx : Context)
           (args : list Value) (errorCode : nat) (err : option string)
  : Outcome Event (nat * option string) :=
  _ <- call (assertService (instance s)) ;;
  _ <- invoke_handle s n ctx args ;;
  ret (errorCode, err).

(** The body of ServeHTTP; the result is what [errorCode] and [err] hold
    when the body returns. *)
Definition ServeHTTP_body (s : Rest) (r : Request)
  : Outcome Event (nat * option string) :=
  (* var err error; var errorCode int *)
  let err : option string := None in
  let errorCode : nat := 0 in
  (* node := s.findNode(r) *)
  match findNode s r with
  | None =>
      ret (StatusNotFound,
           Some ("can't find node to process " ++ URL_Path r)%string)
  | Some n =>
      (* args, e := node.match(r.Method, r.URL.Path) *)
      '(args, e) <- call (node_match n (Method_ r) (URL_Path r)) ;;
      match e with
      | Some _ => ret (StatusNotFound, e)
      | None =>
          (* ctx, e := newContent(w, r, s.defaultMime, s.defaultCharset) *)
          '(ctx, e) <- call (newContent r (defaultMime s) (defaultCharset s)) ;;
          (* if err != nil *)
          match err with
          | Some _ => ret (StatusBadRequest, e)
          | None =>
              (* if req := node.request; req != nil *)
              match request n with
              | Some req =>
                  (* err = ctx.marshaller.Unmarshal(r.Body, request.Interface()) *)
                  '(decoded, err) <- call (Unmarshal ctx (Body r) (reflect_New req)) ;;
                  match err with
                  | Some msg =>
                      ret (StatusBadRequest,
                           Some ("can't marshal request to type " ++ req
                                   ++ ": " ++ msg)%string)
                  | None =>
                      (* args = append(args, request.Elem()) *)
                      callHandler s n ctx (args ++ [decoded]) errorCode err
                  end
              | None => callHandler s n ctx args errorCode err
              end
          end
      end
  end.

(** The deferred function: a panic is recovered and reported as 500; an
    error left in [err] is reported with [errorCode]. *)
Definition deferred (b : Outcome Event (nat * option string))
  : Outcome Event unit :=
  match b with
  | Panicked v t =>
      Returned tt (t ++ map OnWriter
                     (http_Error ("panic: " ++ v)%string
                                 StatusInternalServerError))
  | Returned (errorCode, Some err) t =>
      Returned tt (t ++ map OnWriter (http_Error err errorCode))
  | Returned (_, None) t => Returned tt t
  end.

Definition ServeHTTP (s : Rest) (r : Request) : Outcome Event unit :=
  deferred (ServeHTTP_body s r).

(** *** Vocabulary of the statements *)

(** A route accepts a request: same method, and the pattern matches. *)
Definition accepts (h : node) (r : Request) : Prop :=
  method h = Method_ r /\ MatchString (path h) (URL_Path r) = true.

(** The request gets as far as the call of the handler of [n], with
    context [ctx] and arguments [args]. *)
Definition reachesHandler (s : Rest) (r : Request) (n : node)
           (ctx : Context) (args : list Value) : Prop :=
  findNode s r = Some n /\
  (exists f, assertService (instance s) = Val f) /\
  exists captured e,
    node_match n (Method_ r) (URL_Path r) = Val (captured, None) /\
    newContent r (defaultMime s) (defaultCharset s) = Val (ctx, e) /\
    match request n with
    | None => args = captured
    | Some req =>
        exists decoded,
          Unmarshal ctx (Body r) (reflect_New req) = Val (decoded, None) /\
          args = captured ++ [decoded]
    end.

(** The fields [New] turns into routes, in declaration order. *)
Definition routable (fs : list Field) : list Field :=
  filter (fun f => implements_nodeInterface (Type_ f)) fs.

(** The service struct behind the value handed to [New]: the value is a
    struct, or a pointer to one. *)
Definition structOf (i : ReflectValue) : option Struct :=
  match i with
  | RVStruct t => Some t
  | RVPtr (RVStruct t) => Some t
  | _ => None
  end.

(** The loop of [New] gets past a field: it is exported and, when it is
    routable, [newNode] succeeds on it. *)
Definition passes (t : Struct) (prefix_ : string) (f : Field) : Prop :=
  Exported f = true /\
  (implements_nodeInterface (Type_ f) = true ->
   exists n, newNode t prefix_ f = Ok n).

End Dispatch.

Arguments mkNode {Regexp} method path request handler.
Arguments method {Regexp} n.
Arguments path {Regexp} n.
Arguments request {Regexp} n.
Arguments handler {Regexp} n.
Arguments mkRest {Regexp} prefix defaultCharset defaultMime instance handlers.
Arguments prefix {Regexp} r.
Arguments defaultCharset {Regexp} r.
Arguments defaultMime {Regexp} r.
Arguments instance {Regexp} r.
Arguments handlers {Regexp} r.
Arguments NewOk {Regexp} r.
Arguments NewErr {Regexp} e.
Arguments NewPanic {Regexp} v.
Arguments OnWriter {Regexp Value Context} c.
Arguments Handle {Regexp Value Context} n inst ctx args.
Arguments writerCalls {Regexp Value Context} t.
Arguments handlerCalls {Regexp Value Context} t.
Arguments collectHandlers {Regexp} newNode t prefix_ fs acc.
Arguments New {Regexp} initService newNode i.
Arguments Prefix {Regexp} s.
Arguments findNode_in {Regexp} MatchString hs r.
Arguments findNode {Regexp} MatchString s r.
Arguments invoke_handle {Regexp Value Context} node_handle s n ctx args.
Arguments callHandler {Regexp Value Context} node_handle s n ctx args errorCode err.
Arguments ServeHTTP_body {Regexp} MatchString {Value Context}
  node_match newContent reflect_New Unmarshal node_handle s r.
Arguments deferred {Regexp Value Context} b.
Arguments ServeHTTP {Regexp} MatchString {Value Context}
  node_match newContent reflect_New Unmarshal node_handle s r.
Arguments accepts {Regexp} MatchString h r.
Arguments reachesHandler {Regexp} MatchString {Value Context}
  node_match newContent reflect_New Unmarshal s r n ctx args.
Arguments passes {Regexp} newNode t prefix_ f.

(** ** The handler binder of [newNode] *)

Section Binder.

Variable Regexp : Type.

(** The path compiler, and the check of a method's signature against the
    compiled path, which yields the request-body type if there is one. *)
Variable compilePath : string -> Result Regexp.
Variable checkSignature : Regexp -> Method -> Result (option string).

(** [t.MethodByName(name)]. *)
Fixpoint MethodByName (ms : list Method) (name : string) : option Method :=
  match ms with
  | [] => None
  | m :: rest =>
      if String.eqb (mName m) name then Some m else MethodByName rest name
  end.

(** Modelled from the spec: newNode's tag parsing is not part of the
    sources.  The func-name defaults to ["Handle"+FieldName]. *)
Definition funcName (f : Field) : string :=
  match Get (Tag f) "func" with
  | Some name => name
  | None => ("Handle" ++ Name f)%string
  end.

(** Modelled from the spec: newNode is not part of the sources.  It
    parses the tags of the field into method, path and func-name (method
    and path are required, a missing one is an error naming the field),
    compiles the path under the prefix, resolves the handler by name in
    the method set of the service and validates its signature. *)
Definition newNode_spec (t : Struct) (prefix_ : string) (f : Field)
  : Result (node Regexp) :=
  match Get (Tag f) "method" with
  | None => Err ("field " ++ Name f ++ ": no method tag")%string
  | Some m =>
      match Get (Tag f) "path" with
      | None => Err ("field " ++ Name f ++ ": no path tag")%string
      | Some p =>
          match compilePath (prefix_ ++ p)%string with
          | Err e => Err ("field " ++ Name f ++ ": " ++ e)%string
          | Ok re =>
              match MethodByName (methods t) (funcName f) with
              | None =>
                  Err ("field " ++ Name f ++ ": can't find method "
                         ++ funcName f)%string
              | Some h =>
                  match checkSignature re h with
                  | Err e =>
                      Err ("field " ++ Name f ++ ", method " ++ mName h
                             ++ ": " ++ e)%string
                  | Ok req =>
                      Ok {| method := m; path := re;
                            request := req; handler := h |}
                  end
              end
          end
      end
  end.

End Binder.

(** ** A service to run the definitions on

    A service in the style of the package documentation: a creation route
    with a request body, a lookup that answers 404 itself, a route with an
    integer capture, and two routes whose handlers panic. *)

Module Sample.

Inductive Pattern : Type :=
| Exact (p : string)
| IntAfter (pre : string).

Definition matchPattern (re : Pattern) (s : string) : bool :=
  match re with
  | Exact p => String.eqb p s
  | IntAfter pre => String.prefix pre s
  end.

Inductive Value : Type :=
| VInt (digits : string)
| VBody (type content : string).

Definition Context : Type := (string * string)%type.

Definition isDigit (c : ascii) : bool :=
  Nat.leb 48 (nat_of_ascii c) && Nat.leb (nat_of_ascii c) 57.

Definition allDigits (s : string) : bool :=
  negb (String.eqb s "") && forallb isDigit (list_ascii_of_string s).

Definition endsWithSlash (s : string) : bool :=
  match rev (list_ascii_of_string s) with
  | c :: _ => Ascii.eqb c "/"%char
  | [] => false
  end.

Definition compilePath (p : string) : Result Pattern :=
  if endsWithSlash p then Ok (IntAfter p) else Ok (Exact p).

Definition checkSignature (re : Pattern) (m : Method)
  : Result (option string) :=
  match re, In_ m with
  | Exact _, [] => Ok None
  | Exact _, [t] => Ok (Some t)
  | IntAfter _, ["int"] => Ok None
  | IntAfter _, ["int"; t] => Ok (Some t)
  | _, _ => Err "signature does not fit the path"
  end.

Definition newNode : Struct -> string -> Field -> Result (node Pattern) :=
  newNode_spec Pattern compilePath checkSignature.

Definition initService (service : Field) (tag : StructTag)
  : string * string * string * option string :=
  match Get tag "prefix", Get tag "mime", Get tag "charset" with
  | Some p, Some m, Some c => (p, m, c, None)
  | _, _, _ => ("", "", "", Some "service tag is incomplete")
  end.

Definition node_match (n : node Pattern) (m p : string)
  : PanicOr (list Value * option string) :=
  match path n with
  | Exact _ => Val ([], None)
  | IntAfter pre =>
      let seg := substring (String.length pre)
                           (String.length p - String.length pre) p in
      if allDigits seg then Val ([VInt seg], None)
      else Val ([], Some ("strconv.ParseInt: parsing " ++ seg
                            ++ ": invalid syntax")%string)
  end.

Definition newContent (r : Request) (mime charset : string)
  : PanicOr (Context * option string) :=
  Val ((mime, charset),
       if String.eqb mime "application/json" then None
       else Some ("can't find marshaller for " ++ mime)%string).

Definition reflect_New (t : string) : Value := VBody t "".

Definition Unmarshal (ctx : Context) (data : string) (target : Value)
  : PanicOr (Value * option string) :=
  match target with
  | VBody t _ =>
      if String.eqb data "" then Val (target, Some "EOF")
      else Val (VBody t data, None)
  | VInt _ => Panic "json: Unmarshal(non-pointer)"
  end.

Definition node_handle (n : node Pattern) (inst : Struct) (ctx : Context)
           (args : list Value) : Outcome WriterCall unit :=
  let name := mName (handler n) in
  if String.eqb name "HandleHello" then
    Returned tt (http_Error "can't find hello to rest" StatusNotFound)
  else if String.eqb name "HandleCrash" then
    Panicked "boom" (http_Error "gone" StatusNotFound)
  else if String.eqb name "HandleFail" then
    Panicked "assignment to entry in nil map" []
  else Returned tt [].

Definition serviceField : Field :=
  {| Name := "Service"; Type_ := TService; Exported := true;
     Tag := [("prefix", "/prefix"); ("mime", "application/json");
             ("charset", "utf-8")] |}.

Definition CreateHello : Field :=
  {| Name := "CreateHello"; Type_ := TProcessor; Exported := true;
     Tag := [("method", "POST"); ("path", "/hello")] |}.

Definition GetHello : Field :=
  {| Name := "GetHello"; Type_ := TProcessor; Exported := true;
     Tag := [("method", "GET"); ("path", "/hello/rest");
             ("func", "HandleHello")] |}.

Definition Conv : Field :=
  {| Name := "Conv"; Type_ := TProcessor; Exported := true;
     Tag := [("method", "GET"); ("path", "/conversation/");
             ("func", "GetConversation")] |}.

Definition Crash : Field :=
  {| Name := "Crash"; Type_ := TProcessor; Exported := true;
     Tag := [("method", "GET"); ("path", "/crash")] |}.

Definition Fail : Field :=
  {| Name := "Fail"; Type_ := TProcessor; Exported := true;
     Tag := [("method", "GET"); ("path", "/fail")] |}.

(** A route that overlaps with [Conv], declared after it. *)
Definition Pinned : Field :=
  {| Name := "Pinned"; Type_ := TProcessor; Exported := true;
     Tag := [("method", "GET"); ("path", "/conversation/7");
             ("func", "HandleHello")] |}.

Definition Limit : Field :=
  {| Name := "Limit"; Type_ := TOther "int"; Exported := true; Tag := [] |}.

Definition serviceMethods : list Method :=
  [ {| mName := "HandleCreateHello"; In_ := ["rest.HelloArg"]; Out := None |};
    {| mName := "HandleHello"; In_ := []; Out := Some "rest.HelloArg" |};
    {| mName := "GetConversation"; In_ := ["int"]; Out := Some "string" |};
    {| mName := "HandleCrash"; In_ := []; Out := None |};
    {| mName := "HandleFail"; In_ := []; Out := None |} ].

Definition service : Struct :=
  {| typeName := "RESTService";
     fields := [serviceField; CreateHello; GetHello; Limit; Conv; Crash; Fail;
                Pinned];
     methods := serviceMethods |}.

(** The same routes without the anchor, and with the anchor second. *)
Definition noAnchor : Struct :=
  {| typeName := "NoAnchor";
     fields := [CreateHello; GetHello];
     methods := serviceMethods |}.

Definition anchorSecond : Struct :=
  {| typeName := "AnchorSecond";
     fields := [CreateHello; serviceField; GetHello];
     methods := serviceMethods |}.

(** A route whose handler does not exist. *)
Definition Orphan : Field :=
  {| Name := "Orphan"; Type_ := TStreaming; Exported := true;
     Tag := [("method", "GET"); ("path", "/orphan")] |}.

Definition withOrphan : Struct :=
  {| typeName := "WithOrphan";
     fields := [serviceField; CreateHello; Orphan; GetHello];
     methods := serviceMethods |}.

Definition New : ReflectValue -> NewResult Pattern :=
  New initService newNode.

Definition emptyRest : Rest Pattern :=
  {| prefix := ""; defaultCharset := ""; defaultMime := "";
     instance := service; handlers := [] |}.

Definition rest : Rest Pattern :=
  match New (RVPtr (RVStruct service)) with
  | NewOk r => r
  | _ => emptyRest
  end.

(** The same router with a default mime for which no marshaller exists. *)
Definition restXml : Rest Pattern :=
  {| prefix := prefix rest; defaultCharset := defaultCharset rest;
     defaultMime := "text/xml";
     instance := instance rest; handlers := handlers rest |}.

Definition findNode : Rest Pattern -> Request -> option (node Pattern) :=
  findNode matchPattern.

Definition ServeHTTP
  : Rest Pattern -> Request -> Outcome (Event Pattern Value Context) unit :=
  ServeHTTP matchPattern
            node_match newContent reflect_New Unmarshal node_handle.

Definition get (p : string) : Request :=
  {| Method_ := "GET"; URL_Path := p; Body := "" |}.

Definition post (p data : string) : Request :=
  {| Method_ := "POST"; URL_Path := p; Body := data |}.

Definition convNode : node Pattern :=
  {| method := "GET"; path := IntAfter "/prefix/conversation/";
     request := None;
     handler := {| mName := "GetConversation"; In_ := ["int"];
                   Out := Some "string" |} |}.

Definition createNode : node Pattern :=
  {| method := "POST"; path := Exact "/prefix/hello";
     request := Some "rest.HelloArg";
     handler := {| mName := "HandleCreateHello"; In_ := ["rest.HelloArg"];
                   Out := None |} |}.

Definition helloNode : node Pattern :=
  {| method := "GET"; path := Exact "/prefix/hello/rest";
     request := None;
     handler := {| mName := "HandleHello"; In_ := [];
                   Out := Some "rest.HelloArg" |} |}.

Definition crashNode : node Pattern :=
  {| method := "GET"; path := Exact "/prefix/crash";
     request := None;
     handler := {| mName := "HandleCrash"; In_ := []; Out := None |} |}.

Definition failNode : node Pattern :=
  {| method := "GET"; path := Exact "/prefix/fail";
     request := None;
     handler := {| mName := "HandleFail"; In_ := []; Out := None |} |}.

Definition pinnedNode : node Pattern :=
  {| method := "GET"; path := Exact "/prefix/conversation/7";
     request := None;
     handler := {| mName := "HandleHello"; In_ := [];
                   Out := Some "rest.HelloArg" |} |}.

Definition jsonContext : Context := ("application/json", "utf-8").
Definition xmlContext : Context := ("text/xml", "utf-8").

Definition sampleReaches :=
  reachesHandler matchPattern node_match newContent
                 reflect_New Unmarshal.

End Sample.

(** ** The service of the test file: its handlers over the post map *)

Module HelloService.

(** A Go map with string keys: a key occurs once, assignment replaces. *)
Definition GoMap (V : Type) : Type := list (string * V).

(** [v, ok := m[k]]. *)
Fixpoint lookup {V : Type} (m : GoMap V) (k : string) : option V :=
  match m with
  | [] => None
  | (k', v) :: rest => if String.eqb k' k then Some v else lookup rest k
  end.

(** [m[k] = v]. *)
Fixpoint assign {V : Type} (m : GoMap V) (k : string) (v : V) : GoMap V :=
  match m with
  | [] => [(k, v)]
  | (k', v') :: rest =>
      if String.eqb k' k then (k, v) :: rest
      else (k', v') :: assign rest k v
  end.

(** Maps are references: a struct holds the address of a map, or nil, and
    every copy of the struct shares the map. Channels are their ids;
    [closed] tells which of them have been closed. *)
Record Heap : Type := mkHeap {
  strMaps : nat -> GoMap string;
  chanMaps : nat -> GoMap nat;
  closed : nat -> bool
}.

(** The two map fields of [RestExample]. *)
Record RestExample : Type := mkRestExample {
  post : option nat;
  watch : option nat
}.

Record HelloArg : Type := mkHelloArg {
  To : string;
  Post : string
}.

(** Reading a nil map finds nothing. *)
Definition readStr (h : Heap) (ref : option nat) (k : string) : option string :=
  match ref with
  | None => None
  | Some a => lookup (strMaps h a) k
  end.

Definition readChan (h : Heap) (ref : option nat) (k : string) : option nat :=
  match ref with
  | None => None
  | Some a => lookup (chanMaps h a) k
  end.

Definition writeStr (h : Heap) (a : nat) (k v : string) : Heap :=
  {| strMaps := fun x => if Nat.eqb x a then assign (strMaps h a) k v
                         else strMaps h x;
     chanMaps := chanMaps h;
     closed := closed h |}.

(** What a handler does besides the maps: a send that does not block
    ([select] with [default]) on a channel that is open, and the [Error]
    primitive of the service. *)
Inductive Effect : Type :=
| TrySend (c : nat) (msg : string)
| Error (code : nat) (msg : string).

(** [func (r RestExample) HandleCreateHello(arg HelloArg)]: assignment to
    a nil map panics, and so does the send when the channel registered for
    the addressee is closed. *)
Definition HandleCreateHello (r : RestExample) (arg : HelloArg) (h : Heap)
  : PanicOr (Heap * list Effect) :=
  match post r with
  | None => Panic "assignment to entry in nil map"
  | Some a =>
      let h' := writeStr h a (To arg) (Post arg) in
      match readChan h' (watch r) (To arg) with
      | Some c =>
          if closed h' c then Panic "send on closed channel"
          else Val (h', [TrySend c (Post arg)])
      | None => Val (h', [])
      end
  end.

(** [func (r RestExample) HandleHello() HelloArg]; [vars] is what
    [r.Vars()] returns, nil or a map. *)
Definition HandleHello (r : RestExample) (vars : option (GoMap string))
           (h : Heap) : HelloArg * list Effect :=
  match vars with
  | None => ({| To := ""; Post := "" |}, [Error StatusNotFound "map[]"])
  | Some vs =>
      let to := match lookup vs "to" with Some t => t | None => "" end in
      match readStr h (post r) to with
      | None =>
          ({| To := ""; Post := "" |},
           [Error StatusNotFound ("can't find hello to " ++ to)%string])
      | Some p => ({| To := to; Post := p |}, [])
      end
  end.

(** A series of posts, one call of [HandleCreateHello] after the other. *)
Fixpoint createAll (r : RestExample) (args : list HelloArg) (h : Heap)
  : PanicOr (Heap * list Effect) :=
  match args with
  | [] => Val (h, [])
  | arg :: rest =>
      match HandleCreateHello r arg h with
      | Panic v => Panic v
      | Val (h', evs) =>
          match createAll r rest h' with
          | Panic v => Panic v
          | Val (h'', evs') => Val (h'', evs ++ evs')
          end
      end
  end.

(** The post of the last argument in [args] that is addressed to [k]. *)
Fixpoint lastPost (k : string) (args : list HelloArg) : option string :=
  match args with
  | [] => None
  | arg :: rest =>
      match lastPost k rest with
      | Some p => Some p
      | None => if String.eqb (To arg) k then Some (Post arg) else None
      end
  end.

(** The maps of the test: both made, both empty. *)
Definition emptyHeap : Heap :=
  {| strMaps := fun _ => []; chanMaps := fun _ => [];
     closed := fun _ => false |}.

Definition instance0 : RestExample := {| post := Some 0; watch := Some 0 |}.

(** The argument the test posts. *)
Definition restArg : HelloArg :=
  {| To := "rest"; Post := "rest is powerful" |}.

End HelloService.

(** ** Service structs at the edges of [New] *)

Module SampleEdge.

(** The struct of the test file, with its two map fields. *)
Definition GetHello : Field :=
  {| Name := "GetHello"; Type_ := TProcessor; Exported := true;
     Tag := [("method", "GET"); ("path", "/hello/:to");
             ("func", "HandleHello")] |}.

Definition Watch : Field :=
  {| Name := "Watch"; Type_ := TStreaming; Exported := true;
     Tag := [("method", "GET"); ("path", "/hello/:to/streaming")] |}.

Definition postField : Field :=
  {| Name := "post"; Type_ := TOther "map[string]string";
     Exported := false; Tag := [] |}.

Definition watchField : Field :=
  {| Name := "watch"; Type_ := TOther "map[string]chan string";
     Exported := false; Tag := [] |}.

Definition restExample : Struct :=
  {| typeName := "RestExample";
     fields := [Sample.serviceField; Sample.CreateHello; GetHello; Watch;
                postField; watchField];
     methods :=
       [ {| mName := "HandleCreateHello"; In_ := ["rest.HelloArg"];
            Out := None |};
         {| mName := "HandleHello"; In_ := []; Out := Some "rest.HelloArg" |};
         {| mName := "HandleWatch"; In_ := ["rest.Stream"]; Out := None |} ] |}.

(** A struct whose first field has the name of the anchor and another
    type. *)
Definition namedService : Field :=
  {| Name := "Service"; Type_ := TOther "string"; Exported := true;
     Tag := Tag Sample.serviceField |}.

Definition mistyped : Struct :=
  {| typeName := "Mistyped";
     fields := [namedService; Sample.GetHello];
     methods := Sample.serviceMethods |}.

Definition mistypedRest : Rest Sample.Pattern :=
  match Sample.New (RVStruct mistyped) with
  | NewOk r => r
  | _ => Sample.emptyRest
  end.

(** A struct whose first field is an embedded struct that embeds the
    anchor: [type Base struct { Service }] and
    [type Promoted struct { Base; GetHello Processor }]. *)
Definition baseField : Field :=
  {| Name := "Base";
     Type_ := TEmbedded "Base" false
                (Member "Service" true (Tag Sample.serviceField)
                        NoMembers NoMembers);
     Exported := true; Tag := [] |}.

Definition promoted : Struct :=
  {| typeName := "Promoted";
     fields := [baseField; Sample.GetHello];
     methods := Sample.serviceMethods |}.

Definition promotedRest : Rest Sample.Pattern :=
  {| prefix := "/prefix"; defaultCharset := "utf-8";
     defaultMime := "application/json";
     instance := promoted; handlers := [Sample.helloNode] |}.

(** Two embedded structs that both embed the anchor. *)
Definition otherBaseField : Field :=
  {| Name := "OtherBase";
     Type_ := TEmbedded "OtherBase" false
                (Member "Service" true (Tag Sample.serviceField)
                        NoMembers NoMembers);
     Exported := true; Tag := [] |}.

Definition twice : Struct :=
  {| typeName := "Twice";
     fields := [baseField; otherBaseField; Sample.GetHello];
     methods := Sample.serviceMethods |}.





(** Collaborators that panic. *)
Definition match_panics (n : node Sample.Pattern) (m p : string)
  : PanicOr (list Sample.Value * option string) :=
  Panic "runtime error: index out of range".

End SampleEdge.

(** ** Properties of the router and of the dispatcher *)

Section Properties.

Variable Regexp : Type.
Variable MatchString : Regexp -> string -> bool.
Variable Value : Type.
Variable Context : Type.
Variable initService :
  Field -> StructTag -> string * string * string * option string.
Variable newNode : Struct -> string -> Field -> Result (node Regexp).
Variable node_match :
  node Regexp -> string -> string -> PanicOr (list Value * option string).
Variable newContent :
  Request -> string -> string -> PanicOr (Context * option string).
Variable reflect_New : string -> Value.
Variable Unmarshal :
  Context -> string -> Value -> PanicOr (Value * option string).
Variable node_handle :
  node Regexp -> Struct -> Context -> list Value -> Outcome WriterCall unit.

Local Abbreviation findNode' := (findNode MatchString).
Local Abbreviation New' := (New initService newNode).
Local Abbreviation body' :=
  (ServeHTTP_body MatchString node_match newContent reflect_New Unmarshal
                  node_handle).
Local Abbreviation ServeHTTP' :=
  (ServeHTTP MatchString node_match newContent reflect_New Unmarshal
             node_handle).
Local Abbreviation Ev := (Event Regexp Value Context).
Local Abbreviation accepts := (accepts MatchString).
Local Abbreviation reachesHandler :=
  (reachesHandler MatchString node_match newContent reflect_New Unmarshal).
Local Abbreviation passes := (passes newNode).

(** *** The response writer *)

Lemma statusCode_http_Error (msg : string) (code : nat) :
  statusCode (http_Error msg code) = Some code.
Proof. reflexivity. Qed.

Lemma body_http_Error (msg : string) (code : nat) :
  body (http_Error msg code) = (msg ++ newline)%string.
Proof.
  simpl. induction msg as [|c m IH]; simpl; [reflexivity|].
  now rewrite IH.
Qed.





(** *** Traces *)

Lemma bind_call_Val {E A B : Type} (a : A) (k : A -> Outcome E B) :
  bind (call (Val a)) k = k a.
Proof. unfold bind, call. destruct (k a); reflexivity. Qed.

Lemma bind_call_Panic {E A B : Type} (v : string) (k : A -> Outcome E B) :
  bind (call (Panic v)) k = Panicked v [].
Proof. reflexivity. Qed.

Lemma writerCalls_app (t1 t2 : list Ev) :
  writerCalls (t1 ++ t2) = writerCalls t1 ++ writerCalls t2.
Proof. unfold writerCalls. apply flat_map_app. Qed.

Lemma handlerCalls_app (t1 t2 : list Ev) :
  handlerCalls (t1 ++ t2) = handlerCalls t1 ++ handlerCalls t2.
Proof. unfold handlerCalls. apply flat_map_app. Qed.

Lemma writerCalls_OnWriter (calls : list WriterCall) :
  writerCalls (map (@OnWriter Regexp Value Context) calls) = calls.
Proof.
  unfold writerCalls.
  induction calls as [|c calls IH]; simpl; [reflexivity | now rewrite IH].
Qed.

Lemma handlerCalls_OnWriter (calls : list WriterCall) :
  handlerCalls (map (@OnWriter Regexp Value Context) calls) = [].
Proof.
  unfold handlerCalls.
  induction calls as [|c calls IH]; simpl; [reflexivity | assumption].
Qed.

Lemma writerCalls_Handle (n : node Regexp) (inst : Struct) (ctx : Context)
      (args : list Value) (calls : list WriterCall) :
  writerCalls (Handle n inst ctx args :: map OnWriter calls) = calls.
Proof.
  change (writerCalls ([Handle n inst ctx args]
                         ++ map (@OnWriter Regexp Value Context) calls)
          = calls).
  rewrite writerCalls_app, writerCalls_OnWriter. reflexivity.
Qed.

Lemma handlerCalls_Handle (n : node Regexp) (inst : Struct) (ctx : Context)
      (args : list Value) (calls : list WriterCall) :
  handlerCalls (Handle n inst ctx args :: map OnWriter calls) = [(n, args)].
Proof.
  change (handlerCalls ([Handle n inst ctx args]
                          ++ map (@OnWriter Regexp Value Context) calls)
          = [(n, args)]).
  rewrite handlerCalls_app, handlerCalls_OnWriter. reflexivity.
Qed.

Lemma accepts_dec (h : node Regexp) (r : Request) :
  {accepts h r} + {~ accepts h r}.
Proof.
  unfold accepts.
  destruct (string_dec (method h) (Method_ r)) as [Hm|Hm];
    destruct (MatchString (path h) (URL_Path r)) eqn:Hp;
    (left; split; [assumption | reflexivity])
    || (right; intros [H1 H2]; congruence).
Qed.

Lemma findNode_in_cons (h : node Regexp) (hs : list (node Regexp))
      (r : Request) :
  findNode_in MatchString (h :: hs) r =
  if accepts_dec h r then Some h else findNode_in MatchString hs r.
Proof.
  simpl. destruct (accepts_dec h r) as [[Hm Hp]|Hn].
  - rewrite Hm, String.eqb_refl, Hp. reflexivity.
  - destruct (String.eqb (method h) (Method_ r)) eqn:Hm; simpl;
      [|reflexivity].
    destruct (MatchString (path h) (URL_Path r)) eqn:Hp; [|reflexivity].
    exfalso. apply Hn. split; [now apply String.eqb_eq | assumption].
Qed.

Lemma findNode_in_Some (hs : list (node Regexp)) (r : Request)
      (h : node Regexp) :
  findNode_in MatchString hs r = Some h <->
  exists before after,
    hs = before ++ h :: after /\ accepts h r /\
    Forall (fun x => ~ accepts x r) before.
Proof.
  induction hs as [|x hs IH].
  - simpl. split; [discriminate|].
    intros (before & after & E & _). destruct before; discriminate.
  - rewrite findNode_in_cons. destruct (accepts_dec x r) as [Ha|Hn].
    + split.
      * intros E. injection E as <-. exists [], hs. auto.
      * intros (before & after & E & Hh & Hb).
        destruct before as [|y before]; simpl in E; injection E as -> E'.
        -- reflexivity.
        -- inversion Hb; subst. contradiction.
    + rewrite IH. split.
      * intros (before & after & -> & Hh & Hb).
        exists (x :: before), after. auto.
      * intros (before & after & E & Hh & Hb).
        destruct before as [|y before]; simpl in E; injection E as -> E'.
        -- contradiction.
        -- inversion Hb; subst. eauto.
Qed.

Lemma findNode_in_None (hs : list (node Regexp)) (r : Request) :
  findNode_in MatchString hs r = None <->
  Forall (fun x => ~ accepts x r) hs.
Proof.
  induction hs as [|x hs IH].
  - simpl. split; auto.
  - rewrite findNode_in_cons. destruct (accepts_dec x r) as [Ha|Hn].
    + split; [discriminate|]. intros H. inversion H; subst. contradiction.
    + rewrite IH. split; [auto|]. intros H. now inversion H.
Qed.

(** ServeHTTP returns whatever the functions it calls do: no panic leaves
    it. *)
Lemma ServeHTTP_returns (s : Rest Regexp) (r : Request) :
  exists t, ServeHTTP' s r = Returned tt t.
Proof.
  unfold ServeHTTP, deferred.
  destruct (body' s r) as [[code [e|]] t|v t]; eauto.
Qed.

Lemma body_reachesHandler (s : Rest Regexp) (r : Request) (n : node Regexp)
      (ctx : Context) (args : list Value) :
  reachesHandler s r n ctx args ->
  body' s r = (_ <- invoke_handle node_handle s n ctx args ;; ret (0, None)).
Proof.
  intros (Hf & (f & Hs) & captured & e & Hm & Hc & Hreq).
  unfold ServeHTTP_body. rewrite Hf, Hm. simpl. rewrite Hc. simpl.
  destruct (request n) as [req|].
  - destruct Hreq as (decoded & Hu & ->). rewrite Hu. simpl.
    unfold callHandler. rewrite Hs. simpl.
    destruct (invoke_handle node_handle s n ctx (captured ++ [decoded]));
      reflexivity.
  - subst args. unfold callHandler. rewrite Hs. simpl.
    destruct (invoke_handle node_handle s n ctx captured); reflexivity.
Qed.

(** C5: a request whose method and path no declared route accepts is
    answered with status 404 and a body that names the path; no handler is
    invoked. *)
Theorem ServeHTTP_no_route (s : Rest Regexp) (r : Request) :
  (forall h, In h (handlers s) -> ~ accepts h r) ->
  let msg := ("can't find node to process " ++ URL_Path r)%string in
  ServeHTTP' s r = Returned tt (map OnWriter (http_Error msg StatusNotFound))
  /\ statusCode (writerCalls (traceOf (ServeHTTP' s r))) = Some 404
  /\ body (writerCalls (traceOf (ServeHTTP' s r))) = (msg ++ newline)%string
  /\ handlerCalls (traceOf (ServeHTTP' s r)) = [].
Proof.
  intros Hno msg.
  assert (Hf : findNode' s r = None).
  { unfold findNode. apply findNode_in_None. now apply Forall_forall. }
  assert (E : ServeHTTP' s r
              = Returned tt (map OnWriter (http_Error msg StatusNotFound))).
  { unfold ServeHTTP, ServeHTTP_body. rewrite Hf. reflexivity. }
  rewrite E. cbn [traceOf].
  rewrite writerCalls_OnWriter, handlerCalls_OnWriter, body_http_Error.
  auto.
Qed.

(** C1, as the code has it: when [node.match] returns an error for the
    route that was found, ServeHTTP answers with status 404 and the
    message of that error, invokes no handler and does not panic. *)
Theorem ServeHTTP_match_error (s : Rest Regexp) (r : Request)
        (n : node Regexp) (args : list Value) (e : string) :
  findNode' s r = Some n ->
  node_match n (Method_ r) (URL_Path r) = Val (args, Some e) ->
  ServeHTTP' s r = Returned tt (map OnWriter (http_Error e StatusNotFound))
  /\ statusCode (writerCalls (traceOf (ServeHTTP' s r))) = Some 404
  /\ body (writerCalls (traceOf (ServeHTTP' s r))) = (e ++ newline)%string
  /\ handlerCalls (traceOf (ServeHTTP' s r)) = [].
Proof.
  intros Hf Hm.
  assert (E : ServeHTTP' s r
              = Returned tt (map OnWriter (http_Error e StatusNotFound))).
  { unfold ServeHTTP, ServeHTTP_body. rewrite Hf, Hm. reflexivity. }
  rewrite E. cbn [traceOf].
  rewrite writerCalls_OnWriter, handlerCalls_OnWriter, body_http_Error.
  auto.
Qed.

(** C4: when the route declares a request-body type and unmarshalling the
    body into a fresh value of that type fails, ServeHTTP answers with
    status 400 and the handler is not invoked. *)
Theorem ServeHTTP_decode_failure (s : Rest Regexp) (r : Request)
        (n : node Regexp) (args : list Value) (ctx : Context)
        (e : option string) (req : string) (target : Value) (err : string) :
  findNode' s r = Some n ->
  node_match n (Method_ r) (URL_Path r) = Val (args, None) ->
  newContent r (defaultMime s) (defaultCharset s) = Val (ctx, e) ->
  request n = Some req ->
  Unmarshal ctx (Body r) (reflect_New req) = Val (target, Some err) ->
  let msg := ("can't marshal request to type " ++ req ++ ": " ++ err)%string in
  ServeHTTP' s r = Returned tt (map OnWriter (http_Error msg StatusBadRequest))
  /\ statusCode (writerCalls (traceOf (ServeHTTP' s r))) = Some 400
  /\ handlerCalls (traceOf (ServeHTTP' s r)) = [].
Proof.
  intros Hf Hm Hc Hreq Hu msg.
  assert (E : ServeHTTP' s r
              = Returned tt (map OnWriter (http_Error msg StatusBadRequest))).
  { unfold ServeHTTP, ServeHTTP_body. rewrite Hf, Hm. simpl.
    rewrite Hc. simpl. rewrite Hreq, Hu. reflexivity. }
  rewrite E. cbn [traceOf].
  rewrite writerCalls_OnWriter, handlerCalls_OnWriter.
  auto.
Qed.

(** From the call of the handler on: the handler's own writer calls follow
    the invocation, and a panic of the handler adds the 500 report. *)
Lemma ServeHTTP_at_handler (s : Rest Regexp) (r : Request) (n : node Regexp)
      (ctx : Context) (args : list Value) :
  reachesHandler s r n ctx args ->
  ServeHTTP' s r =
  Returned tt
    (Handle n (instance s) ctx args ::
     map OnWriter
       match node_handle n (instance s) ctx args with
       | Returned _ calls => calls
       | Panicked v calls =>
           calls ++ http_Error ("panic: " ++ v)%string
                               StatusInternalServerError
       end).
Proof.
  intros H. unfold ServeHTTP. rewrite (body_reachesHandler s r n ctx args H).
  unfold invoke_handle.
  destruct (node_handle n (instance s) ctx args) as [[] calls|v calls]; simpl.
  - now rewrite app_nil_r.
  - now rewrite map_app.
Qed.



(** C7, as the code has it: when the handler returns, ServeHTTP makes no
    call on the response writer of its own: the writer has received the
    handler's calls and nothing else, whether or not the handler wrote a
    response. *)
Theorem ServeHTTP_handler_returns (s : Rest Regexp) (r : Request)
        (n : node Regexp) (ctx : Context) (args : list Value)
        (calls : list WriterCall) :
  reachesHandler s r n ctx args ->
  node_handle n (instance s) ctx args = Returned tt calls ->
  ServeHTTP' s r =
    Returned tt (Handle n (instance s) ctx args :: map OnWriter calls)
  /\ writerCalls (traceOf (ServeHTTP' s r)) = calls.
Proof.
  intros H Hr.
  assert (E : ServeHTTP' s r =
              Returned tt (Handle n (instance s) ctx args
                             :: map OnWriter calls)).
  { rewrite (ServeHTTP_at_handler s r n ctx args H), Hr. reflexivity. }
  split; [exact E|]. rewrite E. cbn [traceOf]. apply writerCalls_Handle.
Qed.

(** C10: an error returned by [newContent] is discarded.  ServeHTTP does
    what it does when [newContent] returns the same context and no error:
    it goes on with the returned context, to the decoding of the body and
    to the handler, and writes no 400 for that error. *)
Theorem ServeHTTP_discards_context_error (s : Rest Regexp) (r : Request)
        (n : node Regexp) (captured : list Value) (ctx : Context)
        (e : string) :
  findNode' s r = Some n ->
  node_match n (Method_ r) (URL_Path r) = Val (captured, None) ->
  newContent r (defaultMime s) (defaultCharset s) = Val (ctx, Some e) ->
  ServeHTTP' s r =
    ServeHTTP MatchString node_match (fun _ _ _ => Val (ctx, None))
              reflect_New Unmarshal node_handle s r
  /\ (forall args, reachesHandler s r n ctx args ->
      exists calls,
        traceOf (ServeHTTP' s r) =
        Handle n (instance s) ctx args :: map OnWriter calls)
  /\ (forall args calls, reachesHandler s r n ctx args ->
      node_handle n (instance s) ctx args = Returned tt calls ->
      writerCalls (traceOf (ServeHTTP' s r)) = calls).
Proof.
  intros Hf Hm Hc. split; [|split].
  - unfold ServeHTTP, ServeHTTP_body. rewrite Hf, Hm. simpl.
    rewrite Hc. reflexivity.
  - intros args H. rewrite (ServeHTTP_at_handler s r n ctx args H). cbn [traceOf]. eauto.
  - intros args calls H Hr.
    rewrite (ServeHTTP_at_handler s r n ctx args H), Hr. cbn [traceOf].
    apply writerCalls_Handle.
Qed.

(** *** New *)

Lemma FieldByName_from_index (fs : list Field) (name : string) (i : nat)
      (sf : StructField) :
  FieldByName_from fs name i = Some sf ->
  exists k, Index sf = [k] /\ i <= k.
Proof.
  revert i. induction fs as [|x fs IH]; simpl; intros i H; [discriminate|].
  destruct (String.eqb (Name x) name).
  - injection H as <-. simpl. eauto.
  - destruct (IH _ H) as (k & -> & Hk). exists k. split; [reflexivity|lia].
Qed.

Lemma FieldByName_from_first (fs : list Field) (name : string) (i : nat)
      (sf : StructField) :
  FieldByName_from fs name i = Some sf ->
  hd 0 (Index sf) = i ->
  exists f rest, fs = f :: rest /\ Name f = name /\ sfTag sf = Tag f.
Proof.
  destruct fs as [|x fs]; simpl; [discriminate|].
  destruct (String.eqb (Name x) name) eqn:E.
  - intros H _. injection H as <-. exists x, fs.
    split; [reflexivity|]. split; [now apply String.eqb_eq | reflexivity].
  - intros H Hi. destruct (FieldByName_from_index _ _ _ _ H) as (k & Hk & Hle).
    rewrite Hk in Hi. simpl in Hi. lia.
Qed.

Lemma FieldByName_from_None (fs : list Field) (name : string) (i : nat) :
  (forall f, In f fs -> Name f <> name) ->
  FieldByName_from fs name i = None.
Proof.
  revert i. induction fs as [|x fs IH]; simpl; intros i H; [reflexivity|].
  destruct (String.eqb (Name x) name) eqn:E.
  - apply String.eqb_eq in E. exfalso. exact (H x (or_introl eq_refl) E).
  - apply IH. auto.
Qed.

(** A field of the struct itself is found by the quick check. *)
Lemma FieldByName_declared_first (t : Struct) (service : Field)
      (rest : list Field) (name : string) :
  fields t = service :: rest ->
  Name service = name ->
  FieldByName t name
  = Some {| sfName := Name service; sfTag := Tag service; Index := [0] |}.
Proof.
  intros Hfs Hname. unfold FieldByName. rewrite Hfs. simpl.
  rewrite Hname, String.eqb_refl. reflexivity.
Qed.

Lemma matchesAt_prefix (name : string) (d : nat) (ms : Members)
      (index : list nat) (i : nat) (sf : StructField) :
  In sf (matchesAt name d ms index i) ->
  exists k tail, Index sf = index ++ (i + k) :: tail.
Proof.
  revert d index i.
  induction ms as [|n anonymous tag inner IHinner rest IHrest];
    intros d index i H; simpl in H; [contradiction|].
  apply in_app_or in H. destruct H as [H|H].
  - destruct d as [|d'].
    + destruct (String.eqb n name); [|contradiction].
      destruct H as [<-|[]]. exists 0, []. simpl. now rewrite Nat.add_0_r.
    + destruct (String.eqb n name); [contradiction|].
      destruct anonymous; [|contradiction].
      destruct (IHinner _ _ _ H) as (k & tail & E).
      exists 0, (k :: tail). rewrite E, <- app_assoc, Nat.add_0_r.
      reflexivity.
  - destruct (IHrest _ _ _ H) as (k & tail & E).
    exists (S k), tail. rewrite E.
    replace (i + S k) with (S i + k) by lia. reflexivity.
Qed.

Lemma matchesAt_top (fs : list Field) (name : string) (i : nat) :
  FieldByName_from fs name i = None ->
  matchesAt name 0 (layoutOf fs) [] i = [].
Proof.
  revert i. induction fs as [|f fs IH]; simpl; intros i H; [reflexivity|].
  destruct (String.eqb (Name f) name); [discriminate|].
  simpl. now apply IH.
Qed.

(** A promoted field is reached through an embedded field of the struct. *)
Lemma matchesAt_layout (fs : list Field) (name : string) (d i : nat)
      (sf : StructField) :
  In sf (matchesAt name (S d) (layoutOf fs) [] i) ->
  exists k f,
    hd 0 (Index sf) = i + k /\ nth_error fs k = Some f /\
    isEmbedded (Type_ f) = true.
Proof.
  revert i. induction fs as [|f fs IH]; simpl; intros i H; [contradiction|].
  apply in_app_or in H. destruct H as [H|H].
  - destruct (String.eqb (Name f) name); [contradiction|].
    destruct (isEmbedded (Type_ f)) eqn:E; [|contradiction].
    destruct (matchesAt_prefix _ _ _ _ _ _ H) as (k & tail & Hk).
    exists 0, f. rewrite Hk, Nat.add_0_r. auto.
  - destruct (IH _ H) as (k & f' & Hk & Hn & He).
    exists (S k), f'. rewrite Hk. split; [lia | auto].
Qed.

Lemma searchLevels_In (name : string) (ms : Members) (levels d : nat)
      (sf : StructField) :
  searchLevels name ms levels d = Some sf ->
  exists d', d <= d' /\ In sf (matchesAt name d' ms [] 0).
Proof.
  revert d. induction levels as [|levels IH]; simpl; intros d H;
    [discriminate|].
  destruct (matchesAt name d ms [] 0) as [|x [|y l]] eqn:E.
  - destruct (IH _ H) as (d' & Hle & Hin). exists d'. split; [lia | auto].
  - injection H as <-. exists d. rewrite E. split; [lia | now left].
  - discriminate.
Qed.

(** Where [FieldByName] finds a field whose index sequence starts with 0:
    in the first field of the struct, which has that name or is an
    embedded struct. *)
Lemma FieldByName_first (t : Struct) (name : string) (sf : StructField) :
  FieldByName t name = Some sf ->
  hd 0 (Index sf) = 0 ->
  exists f rest,
    fields t = f :: rest /\
    (Name f = name \/ isEmbedded (Type_ f) = true).
Proof.
  unfold FieldByName. intros H Hi.
  destruct (FieldByName_from (fields t) name 0) as [sf'|] eqn:Hq.
  - injection H as ->.
    destruct (FieldByName_from_first _ _ _ _ Hq Hi) as (f & rest & Hfs & Hn & _).
    eauto.
  - destruct (existsb (fun f => isEmbedded (Type_ f)) (fields t));
      [|discriminate].
    destruct (searchLevels_In _ _ _ _ _ H) as (d & _ & Hin).
    destruct d as [|d].
    + rewrite (matchesAt_top _ _ _ Hq) in Hin. contradiction.
    + destruct (matchesAt_layout _ _ _ _ _ Hin) as (k & f & Hk & Hn & He).
      rewrite Hi in Hk. destruct k; [|discriminate].
      destruct (fields t) as [|f0 rest]; [discriminate|].
      injection Hn as ->. eauto.
Qed.

Lemma collectHandlers_Ok (t : Struct) (p : string) (fs : list Field)
      (acc hs : list (node Regexp)) :
  collectHandlers newNode t p fs acc = Val (Ok hs) ->
  exists ns,
    hs = acc ++ ns /\
    Forall2 (fun f n => newNode t p f = Ok n) (routable fs) ns.
Proof.
  revert acc. induction fs as [|f fs IH]; simpl; intros acc H.
  - injection H as <-. exists []. rewrite app_nil_r. auto.
  - destruct (Exported f); simpl in H; [|discriminate].
    destruct (implements_nodeInterface (Type_ f)) eqn:Hn; simpl in H.
    + destruct (newNode t p f) as [n|e] eqn:Hnew; [|discriminate].
      destruct (IH _ H) as (ns & -> & Hall).
      exists (n :: ns). rewrite <- app_assoc. auto.
    + auto.
Qed.

Lemma collectHandlers_Err (t : Struct) (p : string)
      (before : list Field) (f : Field) (after : list Field)
      (acc : list (node Regexp)) (e : string) :
  Forall (passes t p) before ->
  Exported f = true ->
  implements_nodeInterface (Type_ f) = true ->
  newNode t p f = Err e ->
  collectHandlers newNode t p (before ++ f :: after) acc = Val (Err e).
Proof.
  intros Hb He Hn Hnew. revert acc.
  induction Hb as [|x before [Hx1 Hx2] Hb IH]; simpl; intros acc.
  - rewrite He, Hn, Hnew. reflexivity.
  - rewrite Hx1. simpl.
    destruct (implements_nodeInterface (Type_ x)); simpl; [|apply IH].
    destruct (Hx2 eq_refl) as (n & ->). apply IH.
Qed.

Lemma New_of_struct (i : ReflectValue) (t : Struct) :
  structOf i = Some t ->
  New' i
  = match FieldByName t "Service" with
    | None => NewErr "can't find restful.Service field"
    | Some serviceType =>
        if negb (Nat.eqb (hd 0 (Index serviceType)) 0) then
          NewErr (typeName t ++ "'s 1st field must be restful.Service")%string
        else
          match fields t with
          | [] => NewPanic "reflect: Field index out of range"
          | service :: _ =>
              let '(prefix_, mime, charset, err) :=
                initService service (sfTag serviceType) in
              match err with
              | Some e => NewErr e
              | None =>
                  match collectHandlers newNode t prefix_ (fields t) [] with
                  | Panic v => NewPanic v
                  | Val (Err e) => NewErr e
                  | Val (Ok handlers_) =>
                      NewOk {| prefix := prefix_;
                               defaultMime := mime;
                               defaultCharset := charset;
                               handlers := handlers_;
                               instance := t |}
                  end
              end
          end
    end.
Proof.
  intros H.
  destruct i as [|t'| |[|t'| | |]|]; simpl in H; try discriminate;
    injection H as ->; reflexivity.
Qed.

Lemma New_Ok_struct (i : ReflectValue) (s : Rest Regexp) :
  New' i = NewOk s -> exists t, structOf i = Some t.
Proof.
  destruct i as [|t| |[|t| | |]|]; simpl; try discriminate; eauto.
Qed.

(** After the anchor was found in the first field: what is left of [New]. *)
Lemma New_anchored (i : ReflectValue) (t : Struct) (sf : StructField)
      (service : Field) (rest : list Field) :
  structOf i = Some t ->
  FieldByName t "Service" = Some sf ->
  hd 0 (Index sf) = 0 ->
  fields t = service :: rest ->
  New' i
  = let '(prefix_, mime, charset, err) := initService service (sfTag sf) in
    match err with
    | Some e => NewErr e
    | None =>
        match collectHandlers newNode t prefix_ (fields t) [] with
        | Panic v => NewPanic v
        | Val (Err e) => NewErr e
        | Val (Ok handlers_) =>
            NewOk {| prefix := prefix_;
                     defaultMime := mime;
                     defaultCharset := charset;
                     handlers := handlers_;
                     instance := t |}
        end
    end.
Proof.
  intros Ht Hf Hi Hfs. rewrite (New_of_struct _ _ Ht), Hf, Hi. simpl.
  set (loop := collectHandlers newNode t). rewrite Hfs. subst loop.
  rewrite <- Hfs. reflexivity.
Qed.

Lemma New_Ok (i : ReflectValue) (s : Rest Regexp) :
  New' i = NewOk s ->
  exists sf service rest,
    structOf i = Some (instance s) /\
    FieldByName (instance s) "Service" = Some sf /\
    hd 0 (Index sf) = 0 /\
    fields (instance s) = service :: rest /\
    initService service (sfTag sf)
    = (prefix s, defaultMime s, defaultCharset s, None) /\
    Forall2 (fun f n => newNode (instance s) (prefix s) f = Ok n)
            (routable (fields (instance s))) (handlers s).
Proof.
  intros H. destruct (New_Ok_struct _ _ H) as (t & Ht).
  rewrite (New_of_struct _ _ Ht) in H.
  destruct (FieldByName t "Service") as [sf|] eqn:Hf; [|discriminate].
  destruct (Nat.eqb (hd 0 (Index sf)) 0) eqn:Hi; simpl in H; [|discriminate].
  apply Nat.eqb_eq in Hi.
  destruct (fields t) as [|service rest] eqn:Hfs; [discriminate|].
  destruct (initService service (sfTag sf))
    as [[[p m] c] [e|]] eqn:Hinit; [discriminate|].
  rewrite <- Hfs in H.
  destruct (collectHandlers newNode t p (fields t) [])
    as [[hs|e]|v] eqn:Hc; try discriminate.
  injection H as <-. simpl.
  destruct (collectHandlers_Ok _ _ _ _ _ Hc) as (ns & -> & Hall).
  exists sf, service, rest. repeat split; assumption.
Qed.

(** X13: [New] returns an error, and no router, when the value is neither
    a struct nor a pointer, when the struct declares no field named
    Service and embeds no struct, when its first field is neither named
    Service nor an embedded struct, when [initService] fails, and when
    [newNode] fails on the first field the loop cannot get past; a router
    that [New] returns holds the configuration [initService] read and one
    route for every routable field, in their order. *)
Theorem New_configuration_error (i : ReflectValue) :
  (Kind_of i <> StructKind -> Kind_of i <> Ptr -> exists e, New' i = NewErr e)
  /\ (forall t,
         structOf i = Some t ->
         (forall f, In f (fields t) ->
                    Name f <> "Service" /\ isEmbedded (Type_ f) = false) \/
         (exists f rest,
             fields t = f :: rest /\ Name f <> "Service" /\
             isEmbedded (Type_ f) = false) ->
         exists e, New' i = NewErr e)
  /\ (forall t service rest p m c e,
         structOf i = Some t ->
         fields t = service :: rest ->
         Name service = "Service" ->
         initService service (Tag service) = (p, m, c, Some e) ->
         New' i = NewErr e)
  /\ (forall t service rest p m c before f after e,
         structOf i = Some t ->
         fields t = service :: rest ->
         Name service = "Service" ->
         initService service (Tag service) = (p, m, c, None) ->
         fields t = before ++ f :: after ->
         Forall (passes t p) before ->
         Exported f = true ->
         implements_nodeInterface (Type_ f) = true ->
         newNode t p f = Err e ->
         New' i = NewErr e)
  /\ (forall s,
         New' i = NewOk s ->
         exists sf service rest,
           structOf i = Some (instance s) /\
           FieldByName (instance s) "Service" = Some sf /\
           hd 0 (Index sf) = 0 /\
           fields (instance s) = service :: rest /\
           initService service (sfTag sf)
           = (prefix s, defaultMime s, defaultCharset s, None) /\
           Forall2 (fun f n => newNode (instance s) (prefix s) f = Ok n)
                   (routable (fields (instance s))) (handlers s)).
Proof.
  split; [|split; [|split; [|split]]].
  - intros Hs Hp.
    destruct i; simpl in Hs, Hp; try congruence; unfold New; simpl; eauto.
  - intros t Ht Hno. rewrite (New_of_struct _ _ Ht).
    destruct (FieldByName t "Service") as [sf|] eqn:Hf; [|eauto].
    destruct (Nat.eqb (hd 0 (Index sf)) 0) eqn:Hi; simpl; [|eauto].
    apply Nat.eqb_eq in Hi.
    destruct (FieldByName_first _ _ _ Hf Hi) as (f & rest & Hfs & Hcase).
    exfalso. destruct Hno as [Hno|(f' & rest' & Hfs' & Hne & Hemb)].
    + destruct (Hno f) as [Hne Hemb]; [rewrite Hfs; now left|].
      destruct Hcase; congruence.
    + rewrite Hfs in Hfs'. injection Hfs' as -> _.
      destruct Hcase; congruence.
  - intros t service rest p m c e Ht Hfs Hname Hinit.
    rewrite (New_anchored _ _ _ _ _ Ht
               (FieldByName_declared_first _ _ _ _ Hfs Hname) eq_refl Hfs).
    simpl. rewrite Hinit. reflexivity.
  - intros t service rest p m c before f after e
           Ht Hfs Hname Hinit Hsplit Hb He Hn Hnew.
    rewrite (New_anchored _ _ _ _ _ Ht
               (FieldByName_declared_first _ _ _ _ Hfs Hname) eq_refl Hfs).
    simpl. rewrite Hinit, Hsplit.
    now rewrite (collectHandlers_Err t p before f after [] e Hb He Hn Hnew).
  - apply New_Ok.
Qed.

(** C6, on the code: [New] tests only the head of the index sequence that
    [FieldByName] returns.  For a struct whose first field is not named
    Service and through which a field Service is promoted, [New] does not
    return the error of the anchor: it goes on with [initService] and the
    loop, and returns a router when they succeed. *)
Theorem New_promoted_anchor (i : ReflectValue) (t : Struct) (base : Field)
        (rest : list Field) (sf : StructField) (p m c : string)
        (hs : list (node Regexp)) :
  structOf i = Some t ->
  fields t = base :: rest ->
  Name base <> "Service" ->
  FieldByName t "Service" = Some sf ->
  hd 0 (Index sf) = 0 ->
  initService base (sfTag sf) = (p, m, c, None) ->
  collectHandlers newNode t p (fields t) [] = Val (Ok hs) ->
  New' i = NewOk {| prefix := p; defaultMime := m; defaultCharset := c;
                    handlers := hs; instance := t |}
  /\ isEmbedded (Type_ base) = true
  /\ exists v, assertService t = Panic v.
Proof.
  intros Ht Hfs Hne Hf Hi Hinit Hc.
  split; [|split].
  - rewrite (New_anchored _ _ _ _ _ Ht Hf Hi Hfs). simpl.
    rewrite Hinit, Hc. reflexivity.
  - destruct (FieldByName_first _ _ _ Hf Hi) as (f & rest' & Hfs' & Hcase).
    rewrite Hfs in Hfs'. injection Hfs' as <- _.
    destruct Hcase; [contradiction | assumption].
  - assert (He : isEmbedded (Type_ base) = true).
    { destruct (FieldByName_first _ _ _ Hf Hi) as (f & rest' & Hfs' & Hcase).
      rewrite Hfs in Hfs'. injection Hfs' as <- _.
      destruct Hcase; [contradiction | assumption]. }
    unfold assertService, Field0_Interface. rewrite Hfs.
    destruct (Exported base); [|eauto].
    destruct (Type_ base); simpl in He; try discriminate. simpl. eauto.
Qed.

(** *** Dispatch *)

Lemma handlerCalls_deferred (b : Outcome Ev (nat * option string)) :
  handlerCalls (traceOf (deferred b)) = handlerCalls (traceOf b).
Proof.
  destruct b as [[code [e|]] t|v t]; cbn [deferred traceOf];
    try reflexivity;
    now rewrite handlerCalls_app, handlerCalls_OnWriter, app_nil_r.
Qed.

Lemma handlerCalls_callHandler (s : Rest Regexp) (n : node Regexp)
      (ctx : Context) (args : list Value) (code : nat) (err : option string) :
  handlerCalls (traceOf (callHandler node_handle s n ctx args code err)) = []
  \/ handlerCalls (traceOf (callHandler node_handle s n ctx args code err))
     = [(n, args)].
Proof.
  unfold callHandler, invoke_handle.
  destruct (assertService (instance s)) as [f|v]; simpl; [|now left].
  right.
  destruct (node_handle n (instance s) ctx args) as [[] calls|v calls];
    cbn [bind ret traceOf app]; rewrite ?app_nil_r;
    apply handlerCalls_Handle.
Qed.

Lemma handlerCalls_ServeHTTP (s : Rest Regexp) (r : Request)
      (n : node Regexp) (args : list Value) :
  In (n, args) (handlerCalls (traceOf (ServeHTTP' s r))) ->
  findNode' s r = Some n.
Proof.
  unfold ServeHTTP. rewrite handlerCalls_deferred. unfold ServeHTTP_body.
  destruct (findNode' s r) as [n0|]; [|simpl; tauto].
  destruct (node_match n0 (Method_ r) (URL_Path r)) as [[captured [e|]]|v];
    rewrite ?bind_call_Val, ?bind_call_Panic; try (simpl; tauto).
  destruct (newContent r (defaultMime s) (defaultCharset s))
    as [[ctx e]|v];
    rewrite ?bind_call_Val, ?bind_call_Panic; try (simpl; tauto).
  assert (K : forall args0 code err,
             In (n, args)
                (handlerCalls
                   (traceOf (callHandler node_handle s n0 ctx args0 code err))) ->
             Some n0 = Some n).
  { intros args0 code err.
    destruct (handlerCalls_callHandler s n0 ctx args0 code err) as [-> | ->];
      simpl; [tauto|]. intros [E|[]]. now injection E as -> _. }
  destruct (request n0) as [req|]; [|apply K].
  destruct (Unmarshal ctx (Body r) (reflect_New req))
    as [[decoded [msg|]]|v];
    rewrite ?bind_call_Val, ?bind_call_Panic; try (simpl; tauto).
  apply K.
Qed.

(** C2: the route [findNode] selects is the first of the handlers, which
    are in the declaration order of the routable fields, that has the
    method of the request and whose pattern matches its path; when there is
    none, no route is selected.  A handler that ServeHTTP invokes is the
    one of the selected route. *)
Theorem findNode_first_declared :
  (forall (s : Rest Regexp) (r : Request),
      match findNode' s r with
      | Some h =>
          exists before after,
            handlers s = before ++ h :: after /\ accepts h r /\
            Forall (fun x => ~ accepts x r) before
      | None => Forall (fun x => ~ accepts x r) (handlers s)
      end)
  /\ (forall (i : ReflectValue) (s : Rest Regexp),
         New' i = NewOk s ->
         Forall2 (fun f n => newNode (instance s) (prefix s) f = Ok n)
                 (routable (fields (instance s))) (handlers s))
  /\ (forall (s : Rest Regexp) (r : Request) (n : node Regexp)
             (args : list Value),
         In (n, args) (handlerCalls (traceOf (ServeHTTP' s r))) ->
         findNode' s r = Some n).
Proof.
  split; [|split].
  - intros s r. destruct (findNode' s r) as [h|] eqn:E.
    + now apply findNode_in_Some.
    + now apply findNode_in_None.
  - intros i s H. destruct (New_Ok _ _ H) as (sf & service & rest & H').
    apply H'.
  - apply handlerCalls_ServeHTTP.
Qed.

(** *** More on New *)

Lemma collectHandlers_Panic (t : Struct) (p : string)
      (before : list Field) (f : Field) (after : list Field)
      (acc : list (node Regexp)) :
  Forall (passes t p) before ->
  Exported f = false ->
  collectHandlers newNode t p (before ++ f :: after) acc
  = Panic "reflect.Value.Interface: cannot return value obtained from unexported field or method".
Proof.
  intros Hb He. revert acc.
  induction Hb as [|x before [Hx1 Hx2] Hb IH]; simpl; intros acc.
  - rewrite He. reflexivity.
  - rewrite Hx1. simpl.
    destruct (implements_nodeInterface (Type_ x)); simpl; [|apply IH].
    destruct (Hx2 eq_refl) as (n & ->). apply IH.
Qed.

Lemma collectHandlers_Ok_exported (t : Struct) (p : string) (fs : list Field)
      (acc hs : list (node Regexp)) :
  collectHandlers newNode t p fs acc = Val (Ok hs) ->
  Forall (fun f => Exported f = true) fs.
Proof.
  revert acc. induction fs as [|f fs IH]; simpl; intros acc H; [constructor|].
  destruct (Exported f) eqn:He; simpl in H; [|discriminate].
  constructor; [exact He|].
  destruct (implements_nodeInterface (Type_ f)); simpl in H; [|eauto].
  destruct (newNode t p f); [eauto | discriminate].
Qed.

Lemma New_Ok_exported (i : ReflectValue) (s : Rest Regexp) :
  New' i = NewOk s ->
  Forall (fun f => Exported f = true) (fields (instance s)).
Proof.
  intros H. destruct (New_Ok_struct _ _ H) as (t & Ht).
  rewrite (New_of_struct _ _ Ht) in H.
  destruct (FieldByName t "Service") as [serviceType|]; [|discriminate].
  destruct (Nat.eqb (hd 0 (Index serviceType)) 0); simpl in H;
    [|discriminate].
  destruct (fields t) as [|service rest] eqn:Hfs; [discriminate|].
  destruct (initService service (sfTag serviceType))
    as [[[p m] c] [e|]]; [discriminate|].
  rewrite <- Hfs in H.
  destruct (collectHandlers newNode t p (fields t) [])
    as [[hs|e]|v] eqn:Hc; try discriminate.
  injection H as <-. simpl.
  exact (collectHandlers_Ok_exported _ _ _ _ _ Hc).
Qed.

(** X1: handed a nil pointer, or a pointer to a value that is no struct,
    [New] returns neither a router nor an error: reflect panics. *)
Theorem New_pointer_panics (i : ReflectValue) :
  Kind_of i = Ptr ->
  structOf i = None ->
  exists v, New' i = NewPanic v.
Proof.
  intros Hk Hs.
  destruct i as [|t| |target|]; simpl in Hk; try discriminate.
  - unfold New. simpl. eauto.
  - destruct target; simpl in Hs; try discriminate; unfold New; simpl; eauto.
Qed.

(** X2: when the loop of [New] reaches a field that is not exported, [New]
    panics, whatever the type of the field; so every field of a struct for
    which [New] returns a router is exported. *)
Theorem New_unexported_field_panics (i : ReflectValue) :
  (forall t service rest p m c before f after,
      structOf i = Some t ->
      fields t = service :: rest ->
      Name service = "Service" ->
      initService service (Tag service) = (p, m, c, None) ->
      fields t = before ++ f :: after ->
      Forall (passes t p) before ->
      Exported f = false ->
      New' i = NewPanic "reflect.Value.Interface: cannot return value obtained from unexported field or method")
  /\ (forall s,
         New' i = NewOk s ->
         Forall (fun f => Exported f = true) (fields (instance s))).
Proof.
  split; [|apply New_Ok_exported].
  intros t service rest p m c before f after Ht Hfs Hname Hinit Hsplit Hb He.
  rewrite (New_anchored _ _ _ _ _ Ht
             (FieldByName_declared_first _ _ _ _ Hfs Hname) eq_refl Hfs).
  simpl. rewrite Hinit, Hsplit.
  now rewrite (collectHandlers_Panic t p before f after [] Hb He).
Qed.

(** X3: [New] knows the anchor only through [FieldByName].  In a router
    it returns, [FieldByName] finds Service with an index sequence that
    starts with 0, so the first field of the instance is named Service or
    is an embedded struct that promotes it, and that field is exported; the
    type assertion of ServeHTTP on it succeeds when its type is Service,
    and panics when it is not. *)
Theorem New_anchor_by_name (i : ReflectValue) (s : Rest Regexp) :
  New' i = NewOk s ->
  exists sf service rest,
    FieldByName (instance s) "Service" = Some sf
    /\ hd 0 (Index sf) = 0
    /\ fields (instance s) = service :: rest
    /\ (Name service = "Service" \/ isEmbedded (Type_ service) = true)
    /\ Exported service = true
    /\ (Type_ service = TService ->
        assertService (instance s) = Val service)
    /\ (Type_ service <> TService ->
        exists v, assertService (instance s) = Panic v).
Proof.
  intros H. pose proof (New_Ok_exported _ _ H) as Hex.
  destruct (New_Ok _ _ H) as (sf & service & rest & _ & Hf & Hi & Hfs & _).
  exists sf, service, rest. rewrite Hfs in Hex.
  inversion Hex as [|? ? He _]; subst.
  split; [assumption|]. split; [assumption|]. split; [assumption|].
  split.
  { destruct (FieldByName_first _ _ _ Hf Hi) as (f & rest' & Hfs' & Hcase).
    rewrite Hfs in Hfs'. injection Hfs' as <- _. exact Hcase. }
  split; [assumption|].
  unfold assertService, Field0_Interface. rewrite Hfs, He. split.
  - intros ->. reflexivity.
  - intros Hne. destruct (Type_ service); simpl; eauto. contradiction.
Qed.

(** *** More on dispatch *)

Lemma body_cases (s : Rest Regexp) (r : Request) :
  (exists code msg,
      body' s r = Returned (code, Some msg) []
      /\ (code = StatusNotFound \/ code = StatusBadRequest))
  \/ (exists v, body' s r = Panicked v [])
  \/ (exists n ctx args,
         findNode' s r = Some n
         /\ body' s r
            = (_ <- invoke_handle node_handle s n ctx args ;; ret (0, None))).
Proof.
  assert (K : forall n ctx args,
             findNode' s r = Some n ->
             (exists v, callHandler node_handle s n ctx args 0 None
                        = Panicked v [])
             \/ (exists n0 ctx0 args0,
                    findNode' s r = Some n0
                    /\ callHandler node_handle s n ctx args 0 None
                       = (_ <- invoke_handle node_handle s n0 ctx0 args0 ;;
                          ret (0, None)))).
  { intros n ctx args Hf. unfold callHandler.
    destruct (assertService (instance s)) as [f|v].
    - right. exists n, ctx, args. split; [assumption|].
      now rewrite bind_call_Val.
    - left. exists v. reflexivity. }
  unfold ServeHTTP_body.
  destruct (findNode' s r) as [n|] eqn:Hf.
  2:{ left. eexists _, _. split; [reflexivity | now left]. }
  destruct (node_match n (Method_ r) (URL_Path r)) as [[captured [e|]]|v];
    rewrite ?bind_call_Val, ?bind_call_Panic.
  - left. eexists _, _. split; [reflexivity | now left].
  - destruct (newContent r (defaultMime s) (defaultCharset s))
      as [[ctx e]|v]; rewrite ?bind_call_Val, ?bind_call_Panic.
    + destruct (request n) as [req|].
      * destruct (Unmarshal ctx (Body r) (reflect_New req))
          as [[decoded [msg|]]|v]; rewrite ?bind_call_Val, ?bind_call_Panic.
        -- left. eexists _, _. split; [reflexivity | now right].
        -- right. apply (K n ctx (captured ++ [decoded]) eq_refl).
        -- right. left. eauto.
      * right. apply (K n ctx captured eq_refl).
    + right. left. eauto.
  - right. left. eauto.
Qed.

Lemma trace_invoked (s : Rest Regexp) (n : node Regexp) (ctx : Context)
      (args : list Value) :
  exists calls,
    deferred (_ <- invoke_handle node_handle s n ctx args ;; ret (0, None))
    = Returned tt (Handle n (instance s) ctx args :: map OnWriter calls).
Proof.
  unfold invoke_handle.
  destruct (node_handle n (instance s) ctx args) as [[] calls|v calls].
  - exists calls. simpl. now rewrite app_nil_r.
  - exists (calls ++ http_Error ("panic: " ++ v)%string
                                StatusInternalServerError).
    rewrite map_app. reflexivity.
Qed.

(** X4: ServeHTTP invokes at most one handler for a request, and only the
    handler of the route that [findNode] selected. *)
Theorem ServeHTTP_invokes_at_most_once (s : Rest Regexp) (r : Request) :
  handlerCalls (traceOf (ServeHTTP' s r)) = []
  \/ exists n args,
      findNode' s r = Some n
      /\ handlerCalls (traceOf (ServeHTTP' s r)) = [(n, args)].
Proof.
  unfold ServeHTTP.
  destruct (body_cases s r)
    as [(code & msg & -> & _)|[(v & ->)|(n & ctx & args & Hf & ->)]].
  - left. cbn [deferred traceOf app]. apply handlerCalls_OnWriter.
  - left. cbn [deferred traceOf app]. apply handlerCalls_OnWriter.
  - right. exists n, args. split; [assumption|].
    destruct (trace_invoked s n ctx args) as (calls & ->).
    cbn [traceOf]. apply handlerCalls_Handle.
Qed.

(** X5: a request for which no handler is invoked is answered by
    ServeHTTP itself, with one [http.Error] and nothing else, and the
    status is 400, 404 or 500. *)
Theorem ServeHTTP_answers_without_handler (s : Rest Regexp) (r : Request) :
  handlerCalls (traceOf (ServeHTTP' s r)) = [] ->
  exists msg code,
    ServeHTTP' s r = Returned tt (map OnWriter (http_Error msg code))
    /\ (code = 400 \/ code = 404 \/ code = 500).
Proof.
  unfold ServeHTTP.
  destruct (body_cases s r)
    as [(code & msg & -> & Hcode)|[(v & ->)|(n & ctx & args & Hf & ->)]].
  - intros _. exists msg, code. split; [reflexivity|].
    destruct Hcode as [-> | ->]; auto.
  - intros _. eexists _, _. split; [reflexivity | auto].
  - destruct (trace_invoked s n ctx args) as (calls & ->).
    cbn [traceOf]. rewrite handlerCalls_Handle. discriminate.
Qed.

(** X6: a panic of [node.match], of [newContent] or of [Unmarshal] is
    recovered like one of the handler: the answer is 500 with the panic
    message, and no handler is invoked. *)
Theorem ServeHTTP_panic_before_handler (s : Rest Regexp) (r : Request)
        (n : node Regexp) :
  findNode' s r = Some n ->
  (forall v,
      node_match n (Method_ r) (URL_Path r) = Panic v ->
      ServeHTTP' s r
      = Returned tt (map OnWriter
                       (http_Error ("panic: " ++ v)%string
                                   StatusInternalServerError)))
  /\ (forall captured v,
         node_match n (Method_ r) (URL_Path r) = Val (captured, None) ->
         newContent r (defaultMime s) (defaultCharset s) = Panic v ->
         ServeHTTP' s r
         = Returned tt (map OnWriter
                          (http_Error ("panic: " ++ v)%string
                                      StatusInternalServerError)))
  /\ (forall captured ctx e req v,
         node_match n (Method_ r) (URL_Path r) = Val (captured, None) ->
         newContent r (defaultMime s) (defaultCharset s) = Val (ctx, e) ->
         request n = Some req ->
         Unmarshal ctx (Body r) (reflect_New req) = Panic v ->
         ServeHTTP' s r
         = Returned tt (map OnWriter
                          (http_Error ("panic: " ++ v)%string
                                      StatusInternalServerError))).
Proof.
  intros Hf. split; [|split].
  - intros v Hm. unfold ServeHTTP, ServeHTTP_body.
    rewrite Hf, Hm. reflexivity.
  - intros captured v Hm Hc. unfold ServeHTTP, ServeHTTP_body.
    rewrite Hf, Hm. simpl. rewrite Hc. reflexivity.
  - intros captured ctx e req v Hm Hc Hreq Hu.
    unfold ServeHTTP, ServeHTTP_body.
    rewrite Hf, Hm. simpl. rewrite Hc. simpl. rewrite Hreq, Hu. reflexivity.
Qed.

(** X7: when the first field of the instance is not an exported field of
    type Service, a request that gets past matching and decoding is
    answered with 500 for the failed type assertion, and the handler is
    not invoked. *)
Theorem ServeHTTP_anchor_type_mismatch (s : Rest Regexp) (r : Request)
        (n : node Regexp) (captured : list Value) (ctx : Context)
        (e : option string) (v : string) :
  findNode' s r = Some n ->
  node_match n (Method_ r) (URL_Path r) = Val (captured, None) ->
  newContent r (defaultMime s) (defaultCharset s) = Val (ctx, e) ->
  (request n = None \/
   exists req decoded,
     request n = Some req /\
     Unmarshal ctx (Body r) (reflect_New req) = Val (decoded, None)) ->
  assertService (instance s) = Panic v ->
  ServeHTTP' s r
  = Returned tt (map OnWriter
                   (http_Error ("panic: " ++ v)%string
                               StatusInternalServerError))
  /\ handlerCalls (traceOf (ServeHTTP' s r)) = [].
Proof.
  intros Hf Hm Hc Hreq Hs.
  assert (E : ServeHTTP' s r
              = Returned tt (map OnWriter
                               (http_Error ("panic: " ++ v)%string
                                           StatusInternalServerError))).
  { unfold ServeHTTP, ServeHTTP_body. rewrite Hf, Hm. simpl.
    rewrite Hc. simpl.
    destruct Hreq as [-> | (req & decoded & -> & Hu)].
    - unfold callHandler. rewrite Hs. reflexivity.
    - rewrite Hu. simpl. unfold callHandler. rewrite Hs. reflexivity. }
  split; [exact E|]. rewrite E. cbn [traceOf]. apply handlerCalls_OnWriter.
Qed.


(** X9: routes declared after the others never take a request from them:
    over a longer list [findNode] selects what it selected over the first
    part, and looks at the rest only when the first part has no route for
    the request. *)
Theorem findNode_append (hs hs' : list (node Regexp)) (r : Request) :
  findNode_in MatchString (hs ++ hs') r
  = match findNode_in MatchString hs r with
    | Some h => Some h
    | None => findNode_in MatchString hs' r
    end.
Proof.
  induction hs as [|h hs IH]; [reflexivity|].
  change ((h :: hs) ++ hs') with (h :: (hs ++ hs')).
  rewrite !findNode_in_cons.
  destruct (accepts_dec h r); [reflexivity | exact IH].
Qed.

End Properties.


(** ** Properties of the handler binder *)

Section BinderProperties.

Variable Regexp : Type.
Variable compilePath : string -> Result Regexp.
Variable checkSignature : Regexp -> Method -> Result (option string).
Variable initService :
  Field -> StructTag -> string * string * string * option string.

Local Abbreviation newNode' := (newNode_spec Regexp compilePath checkSignature).

Lemma MethodByName_Some (ms : list Method) (name : string) (m : Method) :
  MethodByName ms name = Some m -> mName m = name /\ In m ms.
Proof.
  induction ms as [|x ms IH]; simpl; [discriminate|].
  destruct (String.eqb (mName x) name) eqn:E.
  - intros H. injection H as <-. apply String.eqb_eq in E. auto.
  - intros H. destruct (IH H). auto.
Qed.

Lemma newNode_spec_handler (t : Struct) (prefix_ : string) (f : Field)
      (n : node Regexp) :
  newNode' t prefix_ f = Ok n ->
  MethodByName (methods t) (funcName f) = Some (handler n).
Proof.
  unfold newNode_spec.
  destruct (Get (Tag f) "method") as [m|]; [|discriminate].
  destruct (Get (Tag f) "path") as [p|]; [|discriminate].
  destruct (compilePath (prefix_ ++ p)%string) as [re|e]; [|discriminate].
  destruct (MethodByName (methods t) (funcName f)) as [h|]; [|discriminate].
  destruct (checkSignature re h) as [req|e]; [|discriminate].
  intros H. injection H as <-. reflexivity.
Qed.

(** C9: for a routable field without a func tag, the handler that is bound
    when the route is built is the method of the service whose name is
    Handle followed by the name of the field; without such a method no
    route is built.  So it is in every router [New] returns. *)
Theorem newNode_default_handler :
  (forall (t : Struct) (prefix_ : string) (f : Field) (n : node Regexp),
      Get (Tag f) "func" = None ->
      newNode' t prefix_ f = Ok n ->
      mName (handler n) = ("Handle" ++ Name f)%string
      /\ In (handler n) (methods t)
      /\ MethodByName (methods t) ("Handle" ++ Name f)%string
         = Some (handler n))
  /\ (forall (t : Struct) (prefix_ : string) (f : Field),
         Get (Tag f) "func" = None ->
         MethodByName (methods t) ("Handle" ++ Name f)%string = None ->
         exists e, newNode' t prefix_ f = Err e)
  /\ (forall (i : ReflectValue) (s : Rest Regexp),
         New initService newNode' i = NewOk s ->
         Forall2 (fun f n =>
                    Get (Tag f) "func" = None ->
                    mName (handler n) = ("Handle" ++ Name f)%string)
                 (routable (fields (instance s))) (handlers s)).
Proof.
  assert (K : forall t prefix_ f n,
             Get (Tag f) "func" = None ->
             newNode' t prefix_ f = Ok n ->
             MethodByName (methods t) ("Handle" ++ Name f)%string
             = Some (handler n)).
  { intros t prefix_ f n Hf H. apply newNode_spec_handler in H.
    unfold funcName in H. now rewrite Hf in H. }
  split; [|split].
  - intros t prefix_ f n Hf H. pose proof (K _ _ _ _ Hf H) as Hm.
    destruct (MethodByName_Some _ _ _ Hm). auto.
  - intros t prefix_ f Hf Hno. unfold newNode_spec, funcName.
    rewrite Hf, Hno.
    destruct (Get (Tag f) "method"); [|eauto].
    destruct (Get (Tag f) "path"); [|eauto].
    destruct (compilePath _); eauto.
  - intros i s H.
    destruct (New_Ok _ _ _ _ _ H)
      as (sf & service & rest & _ & _ & _ & _ & _ & Hall).
    induction Hall as [|f n fs ns Hfn Hall IH]; constructor; [|exact IH].
    intros Hf. pose proof (K _ _ _ _ Hf Hfn) as Hm.
    now destruct (MethodByName_Some _ _ _ Hm).
Qed.

End BinderProperties.

(** ** The sample service, run *)

Lemma sample_handlers :
  handlers Sample.rest
  = [Sample.createNode; Sample.helloNode; Sample.convNode; Sample.crashNode;
     Sample.failNode; Sample.pinnedNode].
Proof. reflexivity. Qed.

Lemma reaches_hello : Sample.sampleReaches Sample.rest
                        (Sample.get "/prefix/hello/rest") Sample.helloNode
                        Sample.jsonContext [].
Proof.
  split; [reflexivity|]. split; [eexists; reflexivity|].
  exists [], None. repeat split.
Defined.



Lemma reaches_hello_xml : Sample.sampleReaches Sample.restXml
                            (Sample.get "/prefix/hello/rest") Sample.helloNode
                            Sample.xmlContext [].
Proof.
  split; [reflexivity|]. split; [eexists; reflexivity|].
  exists [], (Some "can't find marshaller for text/xml"). repeat split.
Defined.

(** C5 on the sample: no route accepts GET /prefix/nothing. *)
Lemma ServeHTTP_no_route_witness :
  statusCode (writerCalls (traceOf
    (Sample.ServeHTTP Sample.rest (Sample.get "/prefix/nothing"))))
  = Some 404
  /\ handlerCalls (traceOf
       (Sample.ServeHTTP Sample.rest (Sample.get "/prefix/nothing"))) = [].
Proof.
  assert (H : forall h, In h (handlers Sample.rest) ->
                        ~ accepts Sample.matchPattern h
                                  (Sample.get "/prefix/nothing")).
  { intros h Hin [Hm Hp]. rewrite sample_handlers in Hin.
    repeat (destruct Hin as [<-|Hin]; [discriminate|]). destruct Hin. }
  destruct (ServeHTTP_no_route Sample.Pattern Sample.matchPattern Sample.Value
           Sample.Context Sample.node_match
              Sample.newContent Sample.reflect_New Sample.Unmarshal
              Sample.node_handle Sample.rest
              (Sample.get "/prefix/nothing") H)
    as (_ & Hstatus & _ & Hnone).
  split; [exact Hstatus | exact Hnone].
Defined.

(** C1 on the sample: the segment abc is no integer, [node.match] returns
    the conversion error, and the status is 404, not 400. *)
Lemma conversion_error_answered_404 :
  Sample.findNode Sample.rest (Sample.get "/prefix/conversation/abc")
  = Some Sample.convNode
  /\ Sample.node_match Sample.convNode "GET" "/prefix/conversation/abc"
     = Val ([], Some "strconv.ParseInt: parsing abc: invalid syntax")
  /\ statusCode (writerCalls (traceOf
       (Sample.ServeHTTP Sample.rest
          (Sample.get "/prefix/conversation/abc")))) = Some 404
  /\ statusCode (writerCalls (traceOf
       (Sample.ServeHTTP Sample.rest
          (Sample.get "/prefix/conversation/abc")))) <> Some StatusBadRequest.
Proof.
  repeat split; try reflexivity. vm_compute. discriminate.
Qed.

Lemma ServeHTTP_match_error_witness :
  Sample.ServeHTTP Sample.rest (Sample.get "/prefix/conversation/abc")
  = Returned tt
      (map OnWriter
         (http_Error "strconv.ParseInt: parsing abc: invalid syntax"
                     StatusNotFound)).
Proof.
  apply (ServeHTTP_match_error Sample.Pattern Sample.matchPattern Sample.Value
           Sample.Context Sample.node_match
           Sample.newContent Sample.reflect_New Sample.Unmarshal
           Sample.node_handle Sample.rest
           (Sample.get "/prefix/conversation/abc") Sample.convNode []
           "strconv.ParseInt: parsing abc: invalid syntax");
    reflexivity.
Defined.

(** C4 on the sample: an empty body does not decode. *)
Lemma ServeHTTP_decode_failure_witness :
  statusCode (writerCalls (traceOf
    (Sample.ServeHTTP Sample.rest (Sample.post "/prefix/hello" ""))))
  = Some 400
  /\ handlerCalls (traceOf
       (Sample.ServeHTTP Sample.rest (Sample.post "/prefix/hello" ""))) = [].
Proof.
  apply (ServeHTTP_decode_failure Sample.Pattern Sample.matchPattern Sample.Value
           Sample.Context Sample.node_match
           Sample.newContent Sample.reflect_New Sample.Unmarshal
           Sample.node_handle Sample.rest
           (Sample.post "/prefix/hello" "") Sample.createNode [] Sample.jsonContext None
           "rest.HelloArg" (Sample.VBody "rest.HelloArg" "") "EOF");
    reflexivity.
Defined.




(** C7 on the sample: the handler of /prefix/crash writes a 404 response
    and then panics; ServeHTTP writes its 500 report after it. *)
Lemma report_after_handler_response :
  Sample.node_handle Sample.crashNode (instance Sample.rest) Sample.jsonContext []
  = Panicked "boom" (http_Error "gone" StatusNotFound)
  /\ wroteResponse (http_Error "gone" StatusNotFound) = true
  /\ writerCalls (traceOf
       (Sample.ServeHTTP Sample.rest (Sample.get "/prefix/crash")))
     = http_Error "gone" StatusNotFound
         ++ http_Error "panic: boom" StatusInternalServerError
  /\ writerCalls (traceOf
       (Sample.ServeHTTP Sample.rest (Sample.get "/prefix/crash")))
     <> http_Error "gone" StatusNotFound.
Proof.
  repeat split; try reflexivity. vm_compute. discriminate.
Qed.

Lemma ServeHTTP_handler_returns_witness :
  writerCalls (traceOf
    (Sample.ServeHTTP Sample.rest (Sample.get "/prefix/hello/rest")))
  = http_Error "can't find hello to rest" StatusNotFound.
Proof.
  apply (ServeHTTP_handler_returns Sample.Pattern Sample.matchPattern Sample.Value
           Sample.Context Sample.node_match
           Sample.newContent Sample.reflect_New Sample.Unmarshal
           Sample.node_handle Sample.rest
           (Sample.get "/prefix/hello/rest") Sample.helloNode Sample.jsonContext []
           (http_Error "can't find hello to rest" StatusNotFound)
           reaches_hello eq_refl).
Defined.

(** C10 on the sample: no marshaller exists for text/xml, [newContent]
    returns an error, and the handler runs all the same. *)
Lemma ServeHTTP_discards_context_error_witness :
  Sample.newContent (Sample.get "/prefix/hello/rest")
                     (defaultMime Sample.restXml)
                     (defaultCharset Sample.restXml)
  = Val (Sample.xmlContext, Some "can't find marshaller for text/xml")
  /\ writerCalls (traceOf
       (Sample.ServeHTTP Sample.restXml (Sample.get "/prefix/hello/rest")))
     = http_Error "can't find hello to rest" StatusNotFound.
Proof.
  split; [reflexivity|].
  destruct (ServeHTTP_discards_context_error Sample.Pattern Sample.matchPattern Sample.Value
           Sample.Context Sample.node_match Sample.newContent Sample.reflect_New
              Sample.Unmarshal Sample.node_handle Sample.restXml
              (Sample.get "/prefix/hello/rest") Sample.helloNode [] Sample.xmlContext
              "can't find marshaller for text/xml"
              eq_refl eq_refl eq_refl)
    as (_ & _ & Hw).
  exact (Hw [] _ reaches_hello_xml eq_refl).
Defined.

(** X13 on the sample: a struct without the anchor, one with the anchor
    in second place, and one with a route whose handler does not exist. *)
Lemma New_configuration_error_witness :
  (exists e, Sample.New (RVPtr (RVStruct Sample.noAnchor)) = NewErr e)
  /\ (exists e, Sample.New (RVStruct Sample.anchorSecond) = NewErr e)
  /\ Sample.New (RVPtr (RVStruct Sample.withOrphan))
     = NewErr "field Orphan: can't find method HandleOrphan".
Proof.
  split; [|split].
  - apply (proj1 (proj2 (New_configuration_error Sample.Pattern
                           Sample.initService Sample.newNode
                           (RVPtr (RVStruct Sample.noAnchor))))
                 Sample.noAnchor eq_refl).
    left. intros f [<-|[<-|[]]]; (split; [discriminate | reflexivity]).
  - apply (proj1 (proj2 (New_configuration_error Sample.Pattern
                           Sample.initService Sample.newNode
                           (RVStruct Sample.anchorSecond)))
                 Sample.anchorSecond eq_refl).
    right. exists Sample.CreateHello.
    exists [Sample.serviceField; Sample.GetHello].
    split; [reflexivity|]. split; [discriminate | reflexivity].
  - apply (proj1 (proj2 (proj2 (proj2
             (New_configuration_error Sample.Pattern
                Sample.initService Sample.newNode
                (RVPtr (RVStruct Sample.withOrphan))))))
             Sample.withOrphan Sample.serviceField
             [Sample.CreateHello; Sample.Orphan; Sample.GetHello]
             "/prefix" "application/json" "utf-8"
             [Sample.serviceField; Sample.CreateHello] Sample.Orphan
             [Sample.GetHello]);
      try reflexivity.
    repeat constructor; try discriminate.
    intros _. eexists. reflexivity.
Defined.

(** [FieldByName] on the samples: a declared field, a field promoted
    through the first field, one promoted twice on the same level, and a
    struct without any. *)
Lemma FieldByName_samples :
  FieldByName Sample.service "Service"
  = Some {| sfName := "Service"; sfTag := Tag Sample.serviceField;
            Index := [0] |}
  /\ FieldByName SampleEdge.promoted "Service"
     = Some {| sfName := "Service"; sfTag := Tag Sample.serviceField;
               Index := [0; 0] |}
  /\ FieldByName SampleEdge.twice "Service" = None
  /\ FieldByName Sample.noAnchor "Service" = None.
Proof. repeat split. Qed.

(** C6 on the sample: the anchor is promoted through the embedded first
    field; [New] returns a router, and the type assertion of ServeHTTP on
    the first field of its instance panics. *)
Lemma New_promoted_anchor_witness :
  Name SampleEdge.baseField <> "Service"
  /\ (forall f, In f (fields SampleEdge.promoted) -> Name f <> "Service")
  /\ Sample.New (RVPtr (RVStruct SampleEdge.promoted))
     = NewOk SampleEdge.promotedRest
  /\ exists v, assertService (instance SampleEdge.promotedRest) = Panic v.
Proof.
  split; [discriminate|].
  split; [intros f [<-|[<-|[]]]; discriminate|].
  destruct (New_promoted_anchor Sample.Pattern Sample.initService
              Sample.newNode (RVPtr (RVStruct SampleEdge.promoted))
              SampleEdge.promoted SampleEdge.baseField [Sample.GetHello]
              {| sfName := "Service"; sfTag := Tag Sample.serviceField;
                 Index := [0; 0] |}
              "/prefix" "application/json" "utf-8" [Sample.helloNode])
    as (HNew & _ & Hassert); try reflexivity; try discriminate.
  split; [exact HNew | exact Hassert].
Defined.

(** C2 on the sample: GET /prefix/conversation/7 is accepted by the route
    of Conv and by the route of Pinned, which is declared later; the route
    of Conv is selected. *)
Lemma findNode_first_declared_witness :
  Sample.findNode Sample.rest (Sample.get "/prefix/conversation/7")
  = Some Sample.convNode
  /\ accepts Sample.matchPattern Sample.pinnedNode
             (Sample.get "/prefix/conversation/7")
  /\ exists before after,
      handlers Sample.rest = before ++ Sample.convNode :: after
      /\ accepts Sample.matchPattern Sample.convNode
                 (Sample.get "/prefix/conversation/7")
      /\ Forall (fun x => ~ accepts Sample.matchPattern x
                            (Sample.get "/prefix/conversation/7")) before.
Proof.
  split; [reflexivity|]. split; [split; reflexivity|].
  exact (proj1 (findNode_first_declared Sample.Pattern Sample.matchPattern
                  Sample.Value Sample.Context Sample.initService
                  Sample.newNode Sample.node_match Sample.newContent
                  Sample.reflect_New Sample.Unmarshal Sample.node_handle)
               Sample.rest (Sample.get "/prefix/conversation/7")).
Defined.

(** C9 on the sample: the field CreateHello has no func tag and is bound
    to HandleCreateHello. *)
Lemma newNode_default_handler_witness :
  Get (Tag Sample.CreateHello) "func" = None
  /\ Sample.newNode Sample.service "/prefix" Sample.CreateHello
     = Ok Sample.createNode
  /\ mName (handler Sample.createNode) = "HandleCreateHello".
Proof.
  split; [reflexivity|]. split; [reflexivity|].
  apply (proj1 (newNode_default_handler Sample.Pattern Sample.compilePath
                  Sample.checkSignature Sample.initService)
               Sample.service "/prefix" Sample.CreateHello Sample.createNode);
    reflexivity.
Defined.

(** ** Properties of the handlers of the test file *)

Section HelloProperties.

Import HelloService.

Lemma lookup_assign_same {V : Type} (m : GoMap V) (k : string) (v : V) :
  lookup (assign m k v) k = Some v.
Proof.
  induction m as [|[k' v'] m IH]; simpl.
  - now rewrite String.eqb_refl.
  - destruct (String.eqb k' k) eqn:E; simpl.
    + now rewrite String.eqb_refl.
    + now rewrite E.
Qed.

Lemma lookup_assign_other {V : Type} (m : GoMap V) (k k' : string) (v : V) :
  k <> k' -> lookup (assign m k v) k' = lookup m k'.
Proof.
  intros Hne. induction m as [|[k0 v0] m IH]; simpl.
  - destruct (String.eqb k k') eqn:E; [|reflexivity].
    apply String.eqb_eq in E. contradiction.
  - destruct (String.eqb k0 k) eqn:E; simpl.
    + apply String.eqb_eq in E. subst k0.
      destruct (String.eqb k k') eqn:E'; [|reflexivity].
      apply String.eqb_eq in E'. contradiction.
    + destruct (String.eqb k0 k'); [reflexivity | exact IH].
Qed.

Lemma HandleCreateHello_Val (r : RestExample) (arg : HelloArg)
      (h h' : Heap) (evs : list Effect) :
  HandleCreateHello r arg h = Val (h', evs) ->
  exists a,
    post r = Some a /\ h' = writeStr h a (To arg) (Post arg)
    /\ forall e, In e evs ->
                 exists c, e = TrySend c (Post arg)
                           /\ readChan h (watch r) (To arg) = Some c.
Proof.
  unfold HandleCreateHello. intros Hc.
  destruct (post r) as [a|]; [|discriminate].
  exists a. split; [reflexivity|].
  change (readChan (writeStr h a (To arg) (Post arg)) (watch r) (To arg))
    with (readChan h (watch r) (To arg)) in Hc.
  destruct (readChan h (watch r) (To arg)) as [c|].
  - destruct (closed (writeStr h a (To arg) (Post arg)) c); [discriminate|].
    injection Hc as <- <-. split; [reflexivity|].
    intros e [<-|[]]. eauto.
  - injection Hc as <- <-. split; [reflexivity|]. intros e [].
Qed.

Lemma HandleCreateHello_open (r : RestExample) (a : nat) (arg : HelloArg)
      (h : Heap) :
  post r = Some a ->
  (forall c, readChan h (watch r) (To arg) = Some c -> closed h c = false) ->
  exists evs,
    HandleCreateHello r arg h
    = Val (writeStr h a (To arg) (Post arg), evs).
Proof.
  intros Hp Hopen. unfold HandleCreateHello. rewrite Hp.
  change (readChan (writeStr h a (To arg) (Post arg)) (watch r) (To arg))
    with (readChan h (watch r) (To arg)).
  destruct (readChan h (watch r) (To arg)) as [c|]; [|eauto].
  change (closed (writeStr h a (To arg) (Post arg)) c) with (closed h c).
  rewrite (Hopen c eq_refl). eauto.
Qed.

Lemma HandleHello_written (r' : RestExample) (a : nat) (vs : GoMap string)
      (k v : string) (h : Heap) :
  post r' = Some a ->
  lookup vs "to" = Some k ->
  HandleHello r' (Some vs) (writeStr h a k v)
  = ({| To := k; Post := v |}, []).
Proof.
  intros Hp Hk. unfold HandleHello, readStr. rewrite Hk, Hp. simpl.
  now rewrite Nat.eqb_refl, lookup_assign_same.
Qed.

Lemma HandleHello_other_key (r' : RestExample) (a : nat)
      (vs : GoMap string) (k v : string) (h : Heap) :
  match lookup vs "to" with Some t => t | None => "" end <> k ->
  HandleHello r' (Some vs) (writeStr h a k v) = HandleHello r' (Some vs) h.
Proof.
  intros Hne. unfold HandleHello, readStr.
  destruct (post r') as [b|]; [|reflexivity]. simpl.
  destruct (Nat.eqb b a) eqn:E; [|reflexivity].
  apply Nat.eqb_eq in E. subst b.
  rewrite lookup_assign_other; [reflexivity|]. congruence.
Qed.

(** X10: what [HandleCreateHello] stores, [HandleHello] returns: after a
    post, a lookup for the addressee of that post, through any copy of the
    service that shares the map, returns the posted argument and raises no
    error. *)
Theorem HandleHello_after_HandleCreateHello
        (r r' : RestExample) (arg : HelloArg) (h h' : Heap)
        (evs : list Effect) (vs : GoMap string) :
  HandleCreateHello r arg h = Val (h', evs) ->
  post r' = post r ->
  lookup vs "to" = Some (To arg) ->
  HandleHello r' (Some vs) h' = (arg, []).
Proof.
  intros Hc Hp Hk.
  destruct (HandleCreateHello_Val r arg h h' evs Hc) as (a & Hr & -> & _).
  rewrite Hr in Hp.
  rewrite (HandleHello_written r' a vs (To arg) (Post arg) h Hp Hk).
  now destruct arg.
Qed.

(** X11: a post touches one entry of one map.  Lookups for another
    addressee, and lookups through a service with another map, answer as
    before; the channel maps are left alone; the only send that is tried
    goes to the channel registered for the addressee and carries the
    post; no error is raised. *)
Theorem HandleCreateHello_frame (r : RestExample) (arg : HelloArg)
        (h h' : Heap) (evs : list Effect) :
  HandleCreateHello r arg h = Val (h', evs) ->
  (forall r' vs,
      match lookup vs "to" with Some t => t | None => "" end <> To arg ->
      HandleHello r' (Some vs) h' = HandleHello r' (Some vs) h)
  /\ (forall r' vars,
         post r' <> post r ->
         HandleHello r' vars h' = HandleHello r' vars h)
  /\ (forall a, chanMaps h' a = chanMaps h a)
  /\ (forall e, In e evs ->
                exists c, e = TrySend c (Post arg)
                          /\ readChan h (watch r) (To arg) = Some c).
Proof.
  intros Hc.
  destruct (HandleCreateHello_Val r arg h h' evs Hc) as (a & Hr & -> & Hev).
  split; [|split; [|split]].
  - intros r' vs Hne. now apply HandleHello_other_key.
  - intros r' vars Hne. unfold HandleHello, readStr.
    destruct vars as [vs|]; [|reflexivity].
    destruct (post r') as [b|]; [|reflexivity]. simpl.
    destruct (Nat.eqb b a) eqn:E; [|reflexivity].
    apply Nat.eqb_eq in E. subst b. rewrite Hr in Hne. contradiction.
  - reflexivity.
  - exact Hev.
Qed.

(** X12: after a series of posts that returns, through a service whose
    post map is made, a lookup returns the post of the last one addressed
    to the key, and answers as before the series when none was.  The
    series returns when no channel registered in the watch map is
    closed. *)
Theorem HandleHello_after_posts (r : RestExample) (a : nat)
        (args : list HelloArg) (h : Heap) :
  post r = Some a ->
  (forall h' evs,
      createAll r args h = Val (h', evs) ->
      forall r' vs k,
        post r' = Some a ->
        lookup vs "to" = Some k ->
        HandleHello r' (Some vs) h'
        = match lastPost k args with
          | Some p => ({| To := k; Post := p |}, [])
          | None => HandleHello r' (Some vs) h
          end)
  /\ ((forall k c, readChan h (watch r) k = Some c -> closed h c = false) ->
      exists h' evs, createAll r args h = Val (h', evs)).
Proof.
  intros Hr. split.
  - revert h. induction args as [|arg args IH]; intros h h' evs Hc r' vs k Hp Hk.
    + injection Hc as <- _. reflexivity.
    + simpl in Hc.
      destruct (HandleCreateHello r arg h) as [[h1 evs1]|v] eqn:E1;
        [|discriminate].
      destruct (createAll r args h1) as [[h2 evs2]|v] eqn:E2; [|discriminate].
      injection Hc as <- _.
      destruct (HandleCreateHello_Val r arg h h1 evs1 E1) as (a' & Hr' & -> & _).
      rewrite Hr in Hr'. injection Hr' as <-.
      rewrite (IH _ _ _ E2 r' vs k Hp Hk). simpl.
      destruct (lastPost k args) as [p|]; [reflexivity|].
      destruct (String.eqb (To arg) k) eqn:Ek.
      * apply String.eqb_eq in Ek. subst k.
        now apply HandleHello_written.
      * apply HandleHello_other_key. rewrite Hk. intros ->.
        now rewrite String.eqb_refl in Ek.
  - revert h. induction args as [|arg args IH]; intros h Hopen.
    + exists h, []. reflexivity.
    + destruct (HandleCreateHello_open r a arg h Hr (Hopen (To arg)))
        as (evs1 & E1).
      destruct (IH (writeStr h a (To arg) (Post arg)) Hopen)
        as (h' & evs' & E).
      exists h', (evs1 ++ evs'). simpl. rewrite E1, E. reflexivity.
Qed.

End HelloProperties.

(** ** The further properties, run *)

(** X1 on the sample: a nil pointer. *)
Lemma New_pointer_panics_witness :
  exists v, Sample.New RVNilPtr = NewPanic v.
Proof.
  apply (New_pointer_panics Sample.Pattern Sample.initService Sample.newNode
           RVNilPtr); reflexivity.
Defined.

(** X2 on the struct of the test file: the loop reaches the field post. *)
Lemma New_unexported_field_panics_witness :
  Sample.New (RVPtr (RVStruct SampleEdge.restExample))
  = NewPanic "reflect.Value.Interface: cannot return value obtained from unexported field or method".
Proof.
  apply (proj1 (New_unexported_field_panics Sample.Pattern
                  Sample.initService Sample.newNode
                  (RVPtr (RVStruct SampleEdge.restExample)))
               SampleEdge.restExample Sample.serviceField
               [Sample.CreateHello; SampleEdge.GetHello; SampleEdge.Watch;
                SampleEdge.postField; SampleEdge.watchField]
               "/prefix" "application/json" "utf-8"
               [Sample.serviceField; Sample.CreateHello; SampleEdge.GetHello;
                SampleEdge.Watch]
               SampleEdge.postField [SampleEdge.watchField]);
    try reflexivity.
  repeat constructor; try discriminate; intros _; eexists; reflexivity.
Defined.

(** X3 on the sample: a first field named Service of type string. *)
Lemma New_anchor_by_name_witness :
  Sample.New (RVStruct SampleEdge.mistyped) = NewOk SampleEdge.mistypedRest
  /\ exists v, assertService (instance SampleEdge.mistypedRest) = Panic v.
Proof.
  split; [reflexivity|].
  destruct (New_anchor_by_name Sample.Pattern Sample.initService
              Sample.newNode (RVStruct SampleEdge.mistyped)
              SampleEdge.mistypedRest eq_refl)
    as (sf & service & rest & _ & _ & Hfs & _ & _ & _ & Hne).
  apply Hne. injection Hfs as <- _. discriminate.
Defined.

(** X5 on the sample: no route for GET /prefix/nothing. *)
Lemma ServeHTTP_answers_without_handler_witness :
  exists msg code,
    Sample.ServeHTTP Sample.rest (Sample.get "/prefix/nothing")
    = Returned tt (map OnWriter (http_Error msg code))
    /\ (code = 400 \/ code = 404 \/ code = 500).
Proof.
  apply (ServeHTTP_answers_without_handler Sample.Pattern Sample.matchPattern
           Sample.Value Sample.Context Sample.node_match Sample.newContent
           Sample.reflect_New Sample.Unmarshal Sample.node_handle
           Sample.rest (Sample.get "/prefix/nothing")).
  reflexivity.
Defined.

(** X6 on the sample, with a [node.match] that panics. *)
Lemma ServeHTTP_panic_before_handler_witness :
  ServeHTTP Sample.matchPattern SampleEdge.match_panics Sample.newContent
            Sample.reflect_New Sample.Unmarshal Sample.node_handle
            Sample.rest (Sample.get "/prefix/hello/rest")
  = Returned tt
      (map OnWriter
         (http_Error "panic: runtime error: index out of range"
                     StatusInternalServerError)).
Proof.
  apply (proj1 (ServeHTTP_panic_before_handler Sample.Pattern
                  Sample.matchPattern Sample.Value Sample.Context
                  SampleEdge.match_panics Sample.newContent
                  Sample.reflect_New Sample.Unmarshal Sample.node_handle
                  Sample.rest (Sample.get "/prefix/hello/rest")
                  Sample.helloNode eq_refl)
               "runtime error: index out of range" eq_refl).
Defined.

(** X7 on the sample: the router of the struct with the mistyped anchor. *)
Lemma ServeHTTP_anchor_type_mismatch_witness :
  statusCode (writerCalls (traceOf
    (Sample.ServeHTTP SampleEdge.mistypedRest
       (Sample.get "/prefix/hello/rest")))) = Some 500
  /\ handlerCalls (traceOf
       (Sample.ServeHTTP SampleEdge.mistypedRest
          (Sample.get "/prefix/hello/rest"))) = [].
Proof.
  split; [reflexivity|].
  apply (ServeHTTP_anchor_type_mismatch Sample.Pattern Sample.matchPattern
           Sample.Value Sample.Context Sample.node_match Sample.newContent
           Sample.reflect_New Sample.Unmarshal Sample.node_handle
           SampleEdge.mistypedRest (Sample.get "/prefix/hello/rest")
           Sample.helloNode [] Sample.jsonContext None
           "interface conversion: interface {} is string, not rest.Service"
           eq_refl eq_refl eq_refl (or_introl eq_refl) eq_refl).
Defined.


(** X10 on the maps of the test: the post to rest, then the lookup. *)
Lemma HandleHello_after_HandleCreateHello_witness :
  exists h',
    HelloService.HandleCreateHello HelloService.instance0 HelloService.restArg
                                   HelloService.emptyHeap = Val (h', [])
    /\ HelloService.HandleHello HelloService.instance0
                                (Some [("to", "rest")]) h' = (HelloService.restArg, []).
Proof.
  eexists. split; [reflexivity|].
  apply (HandleHello_after_HandleCreateHello HelloService.instance0
           HelloService.instance0 HelloService.restArg HelloService.emptyHeap _ []
           [("to", "rest")]); reflexivity.
Defined.

(** X11 on the maps of the test: a lookup for another addressee. *)
Lemma HandleCreateHello_frame_witness :
  exists h',
    HelloService.HandleCreateHello HelloService.instance0 HelloService.restArg
                                   HelloService.emptyHeap = Val (h', [])
    /\ HelloService.HandleHello HelloService.instance0
                                (Some [("to", "go")]) h'
       = HelloService.HandleHello HelloService.instance0
                                  (Some [("to", "go")]) HelloService.emptyHeap.
Proof.
  eexists. split; [reflexivity|].
  apply (proj1 (HandleCreateHello_frame HelloService.instance0 HelloService.restArg
                  HelloService.emptyHeap _ [] eq_refl)).
  discriminate.
Defined.

(** X12 on the maps of the test: 404 before the post, the post after two
    posts to the same addressee. *)
Lemma HandleHello_after_posts_witness :
  exists h' evs,
    HelloService.createAll
      HelloService.instance0
      [ {| HelloService.To := "rest"; HelloService.Post := "draft" |};
        HelloService.restArg ]
      HelloService.emptyHeap = Val (h', evs)
    /\ HelloService.HandleHello HelloService.instance0
                                (Some [("to", "rest")]) h'
       = (HelloService.restArg, [])
    /\ HelloService.HandleHello HelloService.instance0
                                (Some [("to", "go")]) h'
       = ({| HelloService.To := ""; HelloService.Post := "" |},
          [HelloService.Error 404 "can't find hello to go"]).
Proof.
  destruct (HandleHello_after_posts HelloService.instance0 0
              [ {| HelloService.To := "rest"; HelloService.Post := "draft" |};
                HelloService.restArg ]
              HelloService.emptyHeap eq_refl)
    as (Hlook & Hruns).
  destruct Hruns as (h' & evs & E); [intros k c H; discriminate|].
  exists h', evs. split; [exact E|]. split.
  - exact (Hlook h' evs E HelloService.instance0 [("to", "rest")] "rest"
                 eq_refl eq_refl).
  - exact (Hlook h' evs E HelloService.instance0 [("to", "go")] "go"
                 eq_refl eq_refl).
Defined.
